(** * ilastik prediction web server: registry, tiled prediction, wire adapters

    A shallow embedding of [server.py] (the [Context] registry, [do_predictions]
    and the Flask route handlers) together with the geometry it relies on, and
    the properties of the server stated over it.

    Conventions.
    - Python exceptions are values of [exn]; a call that may raise returns a
      [result].
    - Python text is a sequence of code points; a [string] holds its UTF-8
      bytes. What Python does to ASCII text is written out; what it does to
      other text is a field of [Unicode].
    - [Context.objects] is a class attribute shared by every request; it is
      threaded explicitly through the monad [M].
    - Capabilities the server only calls (data sources, classifiers, the PNG
      encoder, [from_json_data]) are fields of records or section variables. *)

From Stdlib Require Import ZArith QArith List Ascii String Strings.Byte Permutation Lia.
From stdpp Require Import base option list gmap strings pretty.

Local Open Scope string_scope.
Local Open Scope Z_scope.

(* ===================================================================== *)
(** ** Python values, exceptions and results                              *)
(* ===================================================================== *)

(** The exceptions that the modelled code paths can raise. *)
Inductive exn :=
| KeyError (key : string)             (* dict lookup miss *)
| BadRequestKeyError (key : string)   (* werkzeug: missing query argument *)
| AttributeError (attr : string)      (* attribute lookup on a wrong object *)
| TypeError (msg : string)
| ValueError (msg : string)
| AssertionError (msg : string)
| ModuleNotFoundError (name : string)
| ConnectionRefusedError (msg : string)
| FeatureDataMismatchException (msg : string)
| PyException (msg : string).         (* a bare [Exception(...)] *)

Inductive result (A : Type) :=
| Return (a : A)
| Raise (e : exn).
Arguments Return {A} a.
Arguments Raise {A} e.

Definition rbind {A B} (r : result A) (k : A -> result B) : result B :=
  match r with
  | Return a => k a
  | Raise e => Raise e
  end.

Definition is_raise {A} (r : result A) : bool :=
  match r with Raise _ => true | Return _ => false end.

(* ===================================================================== *)
(** ** Geometry: five labelled axes                                       *)
(* ===================================================================== *)

(** One slot per axis label of [Point5D.LABELS], in the order t, c, x, y, z. *)
Record Axes (A : Type) := mkAxes { t_ : A; c_ : A; x_ : A; y_ : A; z_ : A }.
Arguments mkAxes {A} _ _ _ _ _.
Arguments t_ {A} _.
Arguments c_ {A} _.
Arguments x_ {A} _.
Arguments y_ {A} _.
Arguments z_ {A} _.

(** Python's [slice(start, stop)]: the half-open range [start, stop). *)
Record Interval := slice { start : Z; stop : Z }.

Definition extent (i : Interval) : Z := Z.max 0 (stop i - start i).

Definition contains (i : Interval) (v : Z) : bool :=
  (start i <=? v) && (v <? stop i).

Definition Point5D := Axes Z.
Definition Shape5D := Axes Z.
(** A slot of a [Slice5D] is bound or unbounded ([slice(None)]). *)
Definition Slice5D := Axes (option Interval).
(** A defined region of interest: every axis bound. *)
Definition ROI := Axes Interval.

Definition Slice5D_all : Slice5D := mkAxes None None None None None.

Definition in_roi (r : ROI) (p : Point5D) : bool :=
  contains (t_ r) (t_ p) && contains (c_ r) (c_ p) && contains (x_ r) (x_ p)
  && contains (y_ r) (y_ p) && contains (z_ r) (z_ p).

(** The range [a] lies within the range [b]. *)
Definition within (a b : Interval) : Prop := start b <= start a /\ stop a <= stop b.

Definition shape_of (r : ROI) : Shape5D :=
  mkAxes (extent (t_ r)) (extent (c_ r)) (extent (x_ r)) (extent (y_ r)) (extent (z_ r)).

Definition full (s : Shape5D) : ROI :=
  mkAxes (slice 0 (t_ s)) (slice 0 (c_ s)) (slice 0 (x_ s)) (slice 0 (y_ s)) (slice 0 (z_ s)).

Definition clamp (lo hi v : Z) : Z := Z.max lo (Z.min v hi).

(** Modelled from the spec: resolution of one axis slot against the subject's
    extent (the geometry package is not part of the server sources). An
    unbounded slot becomes [0, extent); a bound slot is clamped into
    [0, extent] and keeps [start <= stop]. *)
Definition resolve_axis (s : option Interval) (n : Z) : Interval :=
  match s with
  | None => slice 0 n
  | Some i =>
      let lo := clamp 0 n (start i) in
      slice lo (Z.max lo (clamp 0 n (stop i)))
  end.

(** Modelled from the spec: [resolve(roi, subject_shape)], axis by axis. *)
Definition resolve (r : Slice5D) (s : Shape5D) : ROI :=
  mkAxes (resolve_axis (t_ r) (t_ s)) (resolve_axis (c_ r) (c_ s))
         (resolve_axis (x_ r) (x_ s)) (resolve_axis (y_ r) (y_ s))
         (resolve_axis (z_ r) (z_ s)).

(** Modelled from the spec: elementwise range intersection; an empty result
    is the explicit empty range [lo, lo). *)
Definition intersect_axis (i j : Interval) : Interval :=
  let lo := Z.max (start i) (start j) in
  slice lo (Z.max lo (Z.min (stop i) (stop j))).

Definition intersect (a b : ROI) : ROI :=
  mkAxes (intersect_axis (t_ a) (t_ b)) (intersect_axis (c_ a) (c_ b))
         (intersect_axis (x_ a) (x_ b)) (intersect_axis (y_ a) (y_ b))
         (intersect_axis (z_ a) (z_ b)).

(** Modelled from the spec: one axis of [tile_grid], walking from the range's
    own start in steps of [stride] and clamping the last tile to the stop.
    [fuel] bounds the walk; [stop - start] steps are enough for a positive
    stride. *)
Fixpoint split_from (fuel : nat) (lo hi stride : Z) : list Interval :=
  match fuel with
  | O => []
  | S fuel' =>
      if lo <? hi
      then slice lo (Z.min (lo + stride) hi) :: split_from fuel' (lo + stride) hi stride
      else []
  end.

Definition split_axis (i : Interval) (stride : Z) : list Interval :=
  split_from (Z.to_nat (stop i - start i)) (start i) (stop i) stride.

(** Modelled from the spec: [tile_grid(roi, tile_shape)], the product of the
    per-axis walks. *)
Definition tile_grid (r : ROI) (ts : Shape5D) : list ROI :=
  flat_map (fun it =>
  flat_map (fun ic =>
  flat_map (fun ix =>
  flat_map (fun iy =>
  map (fun iz => mkAxes it ic ix iy iz) (split_axis (z_ r) (z_ ts)))
    (split_axis (y_ r) (y_ ts)))
    (split_axis (x_ r) (x_ ts)))
    (split_axis (c_ r) (c_ ts)))
    (split_axis (t_ r) (t_ ts)).

(** Number of elements of a list that satisfy a boolean test. *)
Fixpoint count {A} (f : A -> bool) (l : list A) : nat :=
  match l with
  | [] => O
  | a :: l' => ((if f a then 1 else 0) + count f l')%nat
  end.

(** How many regions of a list cover the point [p]. *)
Definition covering (p : Point5D) (tiles : list ROI) : nat :=
  count (fun r => in_roi r p) tiles.

(** The integers of a half-open range, in increasing order. *)
Definition range (i : Interval) : list Z :=
  map (fun k => start i + Z.of_nat k) (seq 0 (Z.to_nat (stop i - start i))).

(* ===================================================================== *)
(** ** Arrays                                                             *)
(* ===================================================================== *)

(** An [Array5D]: a region and one cell per point. [arr_writes] is ghost
    state: the number of times [set] has stored into the cell since the array
    was allocated. Cells outside [arr_roi] are never read. *)
Record Array5D (A : Type) := mkArray {
  arr_roi : ROI;
  arr_data : Point5D -> A;
  arr_writes : Point5D -> nat
}.
Arguments mkArray {A} _ _ _.
Arguments arr_roi {A} _.
Arguments arr_data {A} _.
Arguments arr_writes {A} _.

Definition allocate {A} (r : ROI) (fill : A) : Array5D A :=
  mkArray r (fun _ => fill) (fun _ => O).

(** Modelled from the spec: [Array5D.set(value, autocrop=True)]. The value is
    intersected with the array's bounds before writing; the write touches
    exactly the cells of the intersection. *)
Definition set_autocrop {A} (self value : Array5D A) : Array5D A :=
  let target := intersect (arr_roi value) (arr_roi self) in
  mkArray (arr_roi self)
    (fun p => if in_roi target p then arr_data value p else arr_data self p)
    (fun p => if in_roi target p then S (arr_writes self p) else arr_writes self p).

(** Modelled from the spec: [Array5D.cut(roi)], the sub-array over the part
    of [roi] that lies in the array; unbounded axes keep the array's range. *)
Definition cut_axis (s : option Interval) (have : Interval) : Interval :=
  match s with
  | None => have
  | Some i => intersect_axis i have
  end.

Definition cut {A} (self : Array5D A) (r : Slice5D) : Array5D A :=
  mkArray
    (mkAxes (cut_axis (t_ r) (t_ (arr_roi self))) (cut_axis (c_ r) (c_ (arr_roi self)))
            (cut_axis (x_ r) (x_ (arr_roi self))) (cut_axis (y_ r) (y_ (arr_roi self)))
            (cut_axis (z_ r) (z_ (arr_roi self))))
    (arr_data self) (arr_writes self).

Definition amap {A B} (f : A -> B) (a : Array5D A) : Array5D B :=
  mkArray (arr_roi a) (fun p => f (arr_data a p)) (arr_writes a).

(** The numeric side of the deployment: the sample type of predictions and
    its conversion to 8 bits. The conversion is floating-point arithmetic in
    the source ([as_uint8]), so it is kept abstract; [normalized] is its
    keyword argument. *)
Class Numeric := {
  scalar : Type;
  zero : scalar;
  to_uint8 : bool -> scalar -> byte
}.

Definition as_uint8 `{Numeric} (normalized : bool) (a : Array5D scalar) : Array5D byte :=
  amap (to_uint8 normalized) a.

(** Modelled from the spec: [raw("xyzc").tobytes("F")], the flat bytes of the
    [x, y, z, channel] view with x varying fastest. The view exists only for
    an array with a single time point. *)
Definition tobytes_F_xyzc (a : Array5D byte) : result (list byte) :=
  let r := arr_roi a in
  if extent (t_ r) =? 1 then
    Return
      (flat_map (fun c =>
       flat_map (fun z =>
       flat_map (fun y =>
       map (fun x => arr_data a (mkAxes (start (t_ r)) c x y z)) (range (x_ r)))
         (range (y_ r)))
         (range (z_ r)))
         (range (c_ r)))
  else Raise (AssertionError "raw: dropped axis is not a singleton").

(** Modelled from the spec: [raw("yx")], the rows of the two-dimensional
    image view; t, c and z must be singletons. *)
Definition raw_yx (a : Array5D byte) : result (list (list byte)) :=
  let r := arr_roi a in
  if (extent (t_ r) =? 1) && (extent (c_ r) =? 1) && (extent (z_ r) =? 1) then
    Return
      (map (fun y =>
        map (fun x => arr_data a (mkAxes (start (t_ r)) (start (c_ r)) x y (start (z_ r))))
            (range (x_ r)))
        (range (y_ r)))
  else Raise (AssertionError "raw: dropped axis is not a singleton").

(* ===================================================================== *)
(** ** Classes and stored objects                                         *)
(* ===================================================================== *)

(** A Python class, identified by [__name__], with the names of its proper
    ancestors (its [__mro__] without itself and [object]). *)
Record pyclass := mkClass { cls_name : string; cls_bases : list string }.

Definition issubclass (a b : pyclass) : bool :=
  String.eqb (cls_name a) (cls_name b)
  || existsb (String.eqb (cls_name b)) (cls_bases a).

(** A data source is an opaque capability: [ds_retrieve] may raise. *)
Record DataSource `{Numeric} := mkDataSource {
  ds_class : pyclass;
  ds_name : string;
  ds_shape : Shape5D;
  ds_tile_shape : Shape5D;
  ds_retrieve : ROI -> result (Array5D scalar)
}.
Arguments mkDataSource {_} _ _ _ _ _.

(** A [DataSourceSlice] after [defined()]: a data source and a region. *)
Record DataSourceSlice `{Numeric} := mkDataSourceSlice {
  dss_datasource : DataSource;
  dss_roi : ROI
}.
Arguments mkDataSourceSlice {_} _ _.

(** A classifier is an opaque capability: [cl_predict] retrieves the tile's
    data and predicts on it, and may raise in either step. *)
Record Classifier `{Numeric} := mkClassifier {
  cl_class : pyclass;
  cl_get_expected_roi : ROI -> ROI;
  cl_predict : DataSourceSlice -> result (Array5D scalar)
}.
Arguments mkClassifier {_} _ _ _.

(** What the registry can hold. Objects that the modelled routes never call
    into (feature extractors, annotations, ...) keep only their class. *)
Inductive pyobject `{Numeric} :=
| ObjDataSource (d : DataSource)
| ObjClassifier (c : Classifier)
| ObjOpaque (cls : pyclass) (state : string).
Arguments ObjDataSource {_} _.
Arguments ObjClassifier {_} _.
Arguments ObjOpaque {_} _ _.

Definition type_of `{Numeric} (o : pyobject) : pyclass :=
  match o with
  | ObjDataSource d => ds_class d
  | ObjClassifier c => cl_class c
  | ObjOpaque cls _ => cls
  end.

Definition isinstance `{Numeric} (o : pyobject) (klass : pyclass) : bool :=
  issubclass (type_of o) klass.

(** Duck-typed attribute access: using an object as a data source or as a
    classifier raises [AttributeError] when it is something else. *)
Definition as_datasource `{Numeric} (attr : string) (o : pyobject) : result DataSource :=
  match o with
  | ObjDataSource d => Return d
  | _ => Raise (AttributeError attr)
  end.

Definition as_classifier `{Numeric} (attr : string) (o : pyobject) : result Classifier :=
  match o with
  | ObjClassifier c => Return c
  | _ => Raise (AttributeError attr)
  end.

Definition with_channels (r : ROI) (n : Z) : ROI :=
  mkAxes (t_ r) (slice 0 n) (x_ r) (y_ r) (z_ r).

(** Modelled from the spec: a classifier that emits [n] channels. Its
    expected region keeps the input's extent in time and space and has the
    channels [0, n); a prediction covers the expected region of its tile. *)
Definition emits_channels `{Numeric} (c : Classifier) (n : Z) : Prop :=
  (forall r, cl_get_expected_roi c r = with_channels r n)
  /\ (forall tile prediction,
        cl_predict c tile = Return prediction ->
        arr_roi prediction = cl_get_expected_roi c (dss_roi tile)).

(** Modelled from the spec: [allocate_predictions], a fresh buffer over the
    classifier's expected region. *)
Definition allocate_predictions `{Numeric} (c : Classifier) (r : ROI) : Array5D scalar :=
  allocate (cl_get_expected_roi c r) zero.

(** Modelled from the spec: [DataSourceSlice(datasource, **roi).defined()]. *)
Definition defined `{Numeric} (d : DataSource) (r : Slice5D) : DataSourceSlice :=
  mkDataSourceSlice d (resolve r (ds_shape d)).

(** Modelled from the spec: [DataSourceSlice.get_tiles()], the native tile
    grid of the slice's region. *)
Definition get_tiles `{Numeric} (s : DataSourceSlice) : list DataSourceSlice :=
  map (mkDataSourceSlice (dss_datasource s))
      (tile_grid (dss_roi s) (ds_tile_shape (dss_datasource s))).

(* ===================================================================== *)
(** ** The registry: [Context]                                            *)
(* ===================================================================== *)

(** Computations over the shared dictionary [Context.objects]. An exception
    leaves the dictionary as it was when the exception was raised. *)
Definition M `{Numeric} (A : Type) : Type :=
  gmap string pyobject -> result A * gmap string pyobject.

Definition ret `{Numeric} {A} (a : A) : M A := fun objects => (Return a, objects).

Definition bind `{Numeric} {A B} (m : M A) (k : A -> M B) : M B :=
  fun objects =>
    match m objects with
    | (Return a, objects') => k a objects'
    | (Raise e, objects') => (Raise e, objects')
    end.

Definition lift `{Numeric} {A} (r : result A) : M A := fun objects => (r, objects).

Notation "'let*' x := m 'in' k" := (bind m (fun x => k))
  (at level 10, x pattern, m at level 100, k at level 200).

Module Context.

(** [cls.objects[key]] *)
Definition load `{Numeric} (key : string) : M pyobject :=
  fun objects =>
    match objects !! key with
    | Some obj => (Return obj, objects)
    | None => (Raise (KeyError key), objects)
    end.

(** [store(obj_id, obj)]. [obj_id] is the text that the f-string renders
    for the id; [uuid] is the text of the [uuid.uuid4()] that is drawn when
    no id is given. *)
Definition store `{Numeric} (uuid : string) (obj_id : option string) (obj : pyobject)
  : M string :=
  fun objects =>
    let obj_id := match obj_id with Some i => i | None => uuid end in
    let key := "pointer@" ++ obj_id in
    (Return key, <[key := obj]> objects).

(** [remove(klass, key)]. [klass] is [None] when the caller passes the
    [None] that [get_class_named] can return; [issubclass] then raises. *)
Definition remove `{Numeric} (klass : option pyclass) (key : string) : M pyobject :=
  fun objects =>
    match objects !! key with
    | None => (Raise (KeyError key), objects)
    | Some obj =>
        let target_class := type_of obj in
        match klass with
        | None => (Raise (TypeError "issubclass() arg 2 must be a class"), objects)
        | Some klass =>
            if negb (issubclass target_class klass)
            then (Raise (PyException ("Unexpected class " ++ cls_name target_class
                                      ++ " when deleting object with key " ++ key)),
                  objects)
            else (Return obj, delete key objects)
        end
    end.

(** [get_all(klass)]: the dictionary comprehension over [objects.items()]. *)
Definition get_all `{Numeric} (klass : pyclass) : M (gmap string pyobject) :=
  fun objects =>
    (Return (filter (fun kv => isinstance kv.2 klass = true) objects), objects).

End Context.

(* ===================================================================== *)
(** ** Class-name resolution                                              *)
(* ===================================================================== *)

Definition is_upper (ch : ascii) : bool :=
  let n := nat_of_ascii ch in (65 <=? n)%nat && (n <=? 90)%nat.

Definition is_lower (ch : ascii) : bool :=
  let n := nat_of_ascii ch in (97 <=? n)%nat && (n <=? 122)%nat.

Definition upper (ch : ascii) : ascii :=
  if is_lower ch then ascii_of_nat (nat_of_ascii ch - 32) else ch.

Definition lower (ch : ascii) : ascii :=
  if is_upper ch then ascii_of_nat (nat_of_ascii ch + 32) else ch.

(** A text is ASCII when each of its bytes is below 128. *)
Fixpoint is_ascii (s : string) : bool :=
  match s with
  | EmptyString => true
  | String ch s' => (nat_of_ascii ch <? 128)%nat && is_ascii s'
  end.

(** The ASCII letters of a text in lower case; every other byte is kept. *)
Fixpoint lowercase (s : string) : string :=
  match s with
  | EmptyString => EmptyString
  | String ch s' => String (lower ch) (lowercase s')
  end.

(** What the interpreter does to text that is not ASCII. It is fixed by the
    Unicode database of the interpreter, not by the server.
    - [unicode_title]: [str.title()].
    - [unicode_title_lowercase]: [str.title()] looks at whether a character
      is cased and at what precedes it, not at the case in which an ASCII
      letter arrives.
    - [unicode_int]: [int(text)].
    - [unicode_json_string]: [json.dumps(text)]. *)
Class Unicode := {
  unicode_title : string -> string;
  unicode_title_lowercase : forall s, unicode_title (lowercase s) = unicode_title s;
  unicode_int : string -> result Z;
  unicode_json_string : string -> string
}.

(** [str.title()] on ASCII text: a cased character is upper-cased when it
    follows an uncased one (or starts the string) and lower-cased otherwise. *)
Fixpoint title_from (previous_is_cased : bool) (s : string) : string :=
  match s with
  | EmptyString => EmptyString
  | String ch s' =>
      if is_lower ch || is_upper ch
      then String (if previous_is_cased then lower ch else upper ch) (title_from true s')
      else String ch (title_from false s')
  end.

(** [str.title()] *)
Definition title `{Unicode} (s : string) : string :=
  if is_ascii s then title_from false s else unicode_title s.

(** [s.replace(old, "")] for a one-character [old]. *)
Fixpoint remove_char (old : ascii) (s : string) : string :=
  match s with
  | EmptyString => EmptyString
  | String ch s' =>
      if Ascii.eqb ch old then remove_char old s' else String ch (remove_char old s')
  end.

(** The classes imported by [server.py]. Their bases are declared in the
    imported modules; [server.py] itself fixes only the names. *)
Definition DataSource_class := mkClass "DataSource" [].
Definition SequenceDataSource_class := mkClass "SequenceDataSource" ["DataSource"].
Definition FeatureExtractor_class := mkClass "FeatureExtractor" [].
Definition GaussianSmoothing_class := mkClass "GaussianSmoothing" ["FeatureExtractor"].
Definition HessianOfGaussianEigenvalues_class :=
  mkClass "HessianOfGaussianEigenvalues" ["FeatureExtractor"].
Definition GaussianGradientMagnitude_class :=
  mkClass "GaussianGradientMagnitude" ["FeatureExtractor"].
Definition LaplacianOfGaussian_class := mkClass "LaplacianOfGaussian" ["FeatureExtractor"].
Definition DifferenceOfGaussians_class := mkClass "DifferenceOfGaussians" ["FeatureExtractor"].
Definition StructureTensorEigenvalues_class :=
  mkClass "StructureTensorEigenvalues" ["FeatureExtractor"].
Definition PixelClassifier_class := mkClass "PixelClassifier" [].
Definition VigraPixelClassifier_class := mkClass "VigraPixelClassifier" ["PixelClassifier"].
Definition ScikitLearnPixelClassifier_class :=
  mkClass "ScikitLearnPixelClassifier" ["PixelClassifier"].
Definition IlpVigraPixelClassifier_class :=
  mkClass "IlpVigraPixelClassifier" ["VigraPixelClassifier"; "PixelClassifier"].
Definition Annotation_class := mkClass "Annotation" [].

Definition datasource_classes : list pyclass :=
  [DataSource_class; SequenceDataSource_class].

Definition feature_extractor_classes : list pyclass :=
  [FeatureExtractor_class; GaussianSmoothing_class; HessianOfGaussianEigenvalues_class;
   GaussianGradientMagnitude_class; LaplacianOfGaussian_class;
   DifferenceOfGaussians_class; StructureTensorEigenvalues_class].

Definition classifier_classes : list pyclass :=
  [PixelClassifier_class; VigraPixelClassifier_class; ScikitLearnPixelClassifier_class;
   IlpVigraPixelClassifier_class; Annotation_class].

(** [{klass.__name__: klass for klass in ...}] *)
Definition workflow_classes : gmap string pyclass :=
  foldl (fun m klass => <[cls_name klass := klass]> m) ∅
        (datasource_classes ++ feature_extractor_classes ++ classifier_classes).

(** [name in workflow_classes] *)
Definition known_class (name : string) : bool :=
  match workflow_classes !! name with Some _ => true | None => false end.

(** The name that [get_class_named] looks up. *)
Definition normalized_name `{Unicode} (name : string) : string :=
  if known_class name then name else remove_char "_" (title name).

(* ===================================================================== *)
(** ** Requests, responses and the deployment                             *)
(* ===================================================================== *)

(** A value of the request payload: a form string, a registry object that a
    [pointer@] string resolved to, or the bytes of an uploaded file. *)
Inductive pvalue `{Numeric} :=
| PStr (s : string)
| PRef (o : pyobject)
| PBytes (b : list byte).
Arguments PStr {_} _.
Arguments PRef {_} _.
Arguments PBytes {_} _.

(** How [import pydevd; pydevd.settrace()] can fail: the package is not
    installed, no debugger listens, or the hook fails otherwise. *)
Inductive debugger_failure :=
| NotInstalled
| NotListening
| HookFailed (msg : string).

Definition debugger_exception (f : debugger_failure) : exn :=
  match f with
  | NotInstalled => ModuleNotFoundError "pydevd"
  | NotListening => ConnectionRefusedError "Connection refused"
  | HookFailed msg => PyException msg
  end.

(** What the server calls but does not define.
    - [pydevd_settrace]: the outcome of [import pydevd; pydevd.settrace()],
      [None] when a debugger attaches and the call returns.
    - [from_json_data]: the constructor of a class, applied to
      [listify(unflatten(payload))].
    - [payload_id]: [listify(unflatten(payload)).get("id")] as the f-string
      of [store] renders it, [None] when the unflattened payload has no
      [id]; the call raises when [listify] made a list of the payload.
    - [show_channels]: the debugging display of an annotation.
    - [png_save]: PIL's PNG encoder on the rows of an 8-bit image. *)
Class Deployment `{Numeric} := {
  pydevd_settrace : option debugger_failure;
  from_json_data : pyclass -> gmap string pvalue -> result pyobject;
  payload_id : gmap string pvalue -> result (option string);
  show_channels : pyobject -> result unit;
  png_save : list (list byte) -> list byte
}.

(** The parts of [flask.request] that the handlers read. [args] and [form]
    list what [.items()] yields, in order. *)
Record Request := mkRequest {
  args : list (string * string);
  form : list (string * string);
  files : list (string * list byte)
}.

Record Response := mkResponse {
  status : Z;
  mimetype : string;
  body : list byte
}.

(** [request.args.get(key)] *)
Fixpoint args_get (key : string) (l : list (string * string)) : option string :=
  match l with
  | [] => None
  | (k, v) :: l' => if String.eqb k key then Some v else args_get key l'
  end.

(** [request.args[key]]: werkzeug raises [BadRequestKeyError] on a miss. *)
Definition args_item (key : string) (l : list (string * string)) : result string :=
  match args_get key l with
  | Some v => Return v
  | None => Raise (BadRequestKeyError key)
  end.

(** What Flask sends for the outcome of a view function: the response
    itself, status 400 for [FeatureDataMismatchException] (the registered
    error handler) and for werkzeug's [BadRequestKeyError], and status 500
    for every other exception. *)
Definition flask_response (r : result Response) : Response :=
  match r with
  | Return resp => resp
  | Raise (FeatureDataMismatchException msg) =>
      mkResponse 400 "text/html" (list_byte_of_string msg)
  | Raise (BadRequestKeyError _) =>
      mkResponse 400 "text/html" (list_byte_of_string "Bad Request")
  | Raise _ =>
      mkResponse 500 "text/html" (list_byte_of_string "Internal Server Error")
  end.

Definition dquote : string := String (ascii_of_nat 34) EmptyString.

Definition newline : string := String (ascii_of_nat 10) EmptyString.

Definition hex_digit (n : nat) : ascii :=
  ascii_of_nat (if (n <? 10)%nat then 48 + n else 87 + n).

(** The escape of one ASCII character in [json.dumps]: the quote, the
    backslash and five control characters have short forms, every other
    character outside the range from the space to the tilde is written as
    [\u00XX], and the rest stand for themselves. *)
Definition json_escape_char (ch : ascii) : string :=
  let n := nat_of_ascii ch in
  if (n =? 34)%nat then String "\" dquote
  else if (n =? 92)%nat then "\\"
  else if (n =? 8)%nat then "\b"
  else if (n =? 12)%nat then "\f"
  else if (n =? 10)%nat then "\n"
  else if (n =? 13)%nat then "\r"
  else if (n =? 9)%nat then "\t"
  else if (n <? 32)%nat || (126 <? n)%nat
       then "\u00" ++ String (hex_digit (n / 16)) (String (hex_digit (n mod 16)) EmptyString)
       else String ch EmptyString.

Fixpoint json_escape (s : string) : string :=
  match s with
  | EmptyString => EmptyString
  | String ch s' => json_escape_char ch ++ json_escape s'
  end.

(** [json.dumps] of a string. *)
Definition json_string `{Unicode} (s : string) : string :=
  if is_ascii s then dquote ++ json_escape s ++ dquote else unicode_json_string s.

#[warnings="-register-all"]
Inductive json :=
| JInt (n : Z)
| JStr (s : string)
| JList (items : list json)
| JObj (fields : list (string * json)).

(** [json.dumps]: the text of a JSON document, compact, keys in the order
    of [fields]. *)
Fixpoint dumps `{Unicode} (j : json) : string :=
  match j with
  | JInt n => pretty n
  | JStr s => json_string s
  | JList items =>
      "[" ++ (fix go (l : list json) : string :=
                match l with
                | [] => ""
                | x :: l' => dumps x ++ match l' with [] => "" | _ => "," ++ go l' end
                end) items ++ "]"
  | JObj fields =>
      "{" ++ (fix go (l : list (string * json)) : string :=
                match l with
                | [] => ""
                | (k, v) :: l' =>
                    json_string k ++ ":" ++ dumps v
                    ++ match l' with [] => "" | _ => "," ++ go l' end
                end) fields ++ "}"
  end.

(** [sort_keys=True]: the fields of every object in the order of their
    keys. *)
Fixpoint insert_field (kv : string * json) (l : list (string * json))
  : list (string * json) :=
  match l with
  | [] => [kv]
  | kv' :: l' => if String.leb kv.1 kv'.1 then kv :: l else kv' :: insert_field kv l'
  end.

Fixpoint sort_keys (j : json) : json :=
  match j with
  | JList items => JList (map sort_keys items)
  | JObj fields =>
      JObj ((fix go (l : list (string * json)) : list (string * json) :=
               match l with
               | [] => []
               | (k, v) :: l' => insert_field (k, sort_keys v) (go l')
               end) fields)
  | _ => j
  end.

(** [flask.jsonify]: the document with sorted keys, compact, followed by a
    newline. *)
Definition jsonify `{Unicode} (j : json) : Response :=
  mkResponse 200 "application/json"
             (list_byte_of_string (dumps (sort_keys j) ++ newline)).

Definition json_keys (j : json) : list string :=
  match j with
  | JObj fields => map fst fields
  | _ => []
  end.

Definition json_field (key : string) (j : json) : option json :=
  match j with
  | JObj fields => snd <$> List.find (fun kv => String.eqb kv.1 key) fields
  | _ => None
  end.

Section Registry_routes.
Context `{Deployment} `{!Unicode}.

(** [Context.get_class_named]. The [except KeyError] branch runs the
    debugger hook and then falls off the end of the function, so a miss
    returns [None] unless the hook raises. *)
Definition get_class_named (name : string) : result (option pyclass) :=
  let name := normalized_name name in
  match workflow_classes !! name with
  | Some klass => Return (Some klass)
  | None =>
      match pydevd_settrace with
      | None => Return None
      | Some failure => Raise (debugger_exception failure)
      end
  end.

(** The first loop of [get_request_payload]: [pointer@] strings are
    replaced by the objects they name. *)
Fixpoint payload_of_form (items : list (string * string)) (payload : gmap string pvalue)
  : M (gmap string pvalue) :=
  match items with
  | [] => ret payload
  | (k, v) :: items' =>
      if String.prefix "pointer@" v
      then let* obj := Context.load v in payload_of_form items' (<[k := PRef obj]> payload)
      else payload_of_form items' (<[k := PStr v]> payload)
  end.

Definition payload_of_files (items : list (string * list byte))
           (payload : gmap string pvalue) : gmap string pvalue :=
  foldl (fun m kv => <[kv.1 := PBytes kv.2]> m) payload items.

(** [Context.get_request_payload], before [listify(unflatten(...))], which
    is applied by [from_json_data] in this model. *)
Definition get_request_payload (req : Request) : M (gmap string pvalue) :=
  let* payload := payload_of_form (form req) ∅ in
  ret (payload_of_files (files req) payload).

(** [Context.create(klass)]. [klass] is [None] when [get_class_named]
    returned [None]; the attribute lookup [None.from_json_data] raises. *)
Definition create (uuid : string) (req : Request) (klass : option pyclass)
  : M (pyobject * string) :=
  let* request_payload := get_request_payload req in
  let* obj := lift (match klass with
                    | Some klass => from_json_data klass request_payload
                    | None => Raise (AttributeError "from_json_data")
                    end) in
  let* obj_id := lift (payload_id request_payload) in
  let* key := Context.store uuid obj_id obj in
  ret (obj, key).

(** [POST /<class_name>/] *)
Definition create_object (uuid : string) (req : Request) (class_name : string)
  : M Response :=
  let* klass := lift (get_class_named class_name) in
  let* created := create uuid req klass in
  let* _ := (if isinstance created.1 Annotation_class
             then lift (show_channels created.1)
             else ret tt) in
  ret (mkResponse 200 "text/html" (list_byte_of_string (json_string created.2))).

(** [DELETE /<class_name>/<object_id>] *)
Definition remove_object (class_name object_id : string) : M Response :=
  let* klass := lift (get_class_named class_name) in
  let* _ := Context.remove klass object_id in
  ret (jsonify (JObj [("id", JStr object_id)])).

End Registry_routes.

(* ===================================================================== *)
(** ** The tiled prediction pipeline                                      *)
(* ===================================================================== *)

(** The order in which a thread pool completes the submitted tasks is not
    determined by the program. [picks] resolves it: at each step the task at
    position [pick mod (number of pending tasks)] runs next (position 0 once
    [picks] is exhausted). A task runs atomically. *)
Fixpoint schedule_aux {A} (n : nat) (picks : list nat) (pending : list A) : list A :=
  match n with
  | O => []
  | S n' =>
      let i := (hd O picks mod length pending)%nat in
      match pending !! i with
      | Some a => a :: schedule_aux n' (tl picks) (delete i pending)
      | None => []
      end
  end.

Definition schedule {A} (picks : list nat) (tasks : list A) : list A :=
  schedule_aux (length tasks) picks tasks.

(** The record that [executor.submit] returns for a task: the task's tile
    and the exception it ended with, if any. *)
Record Future := mkFuture { fut_tile : ROI; fut_exception : option exn }.

Section Pipeline.
Context `{Numeric}.

(** The closure [predict_tile]: predict the tile and write the prediction
    into the shared buffer. An exception leaves the buffer untouched and is
    recorded in the task's future. *)
Definition predict_tile (classifier : Classifier) (predictions : Array5D scalar)
           (tile : DataSourceSlice) : Array5D scalar * Future :=
  match cl_predict classifier tile with
  | Return tile_prediction =>
      (set_autocrop predictions tile_prediction, mkFuture (dss_roi tile) None)
  | Raise e => (predictions, mkFuture (dss_roi tile) (Some e))
  end.

(** The [with ThreadPoolExecutor()] block: every submitted task has run
    when the block is left. *)
Definition executor_run (classifier : Classifier) (order : list DataSourceSlice)
           (predictions : Array5D scalar) : Array5D scalar * list Future :=
  foldl (fun acc tile =>
           let '(buffer, futures) := acc in
           let '(buffer', future) := predict_tile classifier buffer tile in
           (buffer', (futures ++ [future])%list))
        (predictions, []) order.

(** Whether the task of [tile] stores into the cell [p] of a buffer over
    [buffer_roi]: its prediction succeeds and, cropped to the buffer,
    covers [p]. *)
Definition tile_writes_cell (classifier : Classifier) (buffer_roi : ROI) (p : Point5D)
           (tile : DataSourceSlice) : bool :=
  match cl_predict classifier tile with
  | Return tile_prediction => in_roi (intersect (arr_roi tile_prediction) buffer_roi) p
  | Raise _ => false
  end.

(** [do_predictions]. The futures are dropped: [executor.submit]'s return
    value is not bound, and nothing calls [result()] on it. *)
Definition do_predictions (picks : list nat) (roi : Slice5D)
           (classifier_id datasource_id : string) : M (Array5D scalar) :=
  let* classifier := Context.load classifier_id in
  let* datasource := Context.load datasource_id in
  let* datasource := lift (as_datasource "shape" datasource) in
  let backed_roi := defined datasource roi in
  let* classifier := lift (as_classifier "allocate_predictions" classifier) in
  let predictions := allocate_predictions classifier (dss_roi backed_roi) in
  let outcome := executor_run classifier (schedule picks (get_tiles backed_roi))
                              predictions in
  ret outcome.1.

(** The futures of the same run, which the source discards. *)
Definition do_predictions_futures (picks : list nat) (roi : Slice5D)
           (classifier : Classifier) (datasource : DataSource) : list Future :=
  let backed_roi := defined datasource roi in
  (executor_run classifier (schedule picks (get_tiles backed_roi))
                (allocate_predictions classifier (dss_roi backed_roi))).2.

End Pipeline.

(* ===================================================================== *)
(** ** Wire adapters                                                      *)
(* ===================================================================== *)

Definition to_tuple_xyz (s : Shape5D) : list Z := [x_ s; y_ s; z_ s].

(** The dictionary that [info_dict] hands to [flask.jsonify]. *)
Definition info_document (expected_predictions_shape tile_shape : Shape5D) : json :=
  JObj [("@type", JStr "neuroglancer_multiscale_volume");
        ("type", JStr "image");
        ("data_type", JStr "uint8");
        ("num_channels", JInt (c_ expected_predictions_shape));
        ("scales",
         JList [JObj [("key", JStr "data");
                      ("size", JList (map JInt (to_tuple_xyz expected_predictions_shape)));
                      ("resolution", JList [JInt 1; JInt 1; JInt 1]);
                      ("voxel_offset", JList [JInt 0; JInt 0; JInt 0]);
                      ("chunk_sizes", JList [JList (map JInt (to_tuple_xyz tile_shape))]);
                      ("encoding", JStr "raw")]])].

(** [int(text)] on ASCII text: surrounding whitespace is ignored, a sign
    may lead, and single underscores may separate digits. (The interpreter
    is taken to set no limit on the number of digits.) *)
Definition is_space (ch : ascii) : bool :=
  let n := nat_of_ascii ch in (n =? 32)%nat || ((9 <=? n)%nat && (n <=? 13)%nat).

Definition is_digit (ch : ascii) : bool :=
  let n := nat_of_ascii ch in (48 <=? n)%nat && (n <=? 57)%nat.

Fixpoint lstrip (l : list ascii) : list ascii :=
  match l with
  | ch :: l' => if is_space ch then lstrip l' else l
  | [] => []
  end.

Definition strip (l : list ascii) : list ascii := rev (lstrip (rev (lstrip l))).

Fixpoint digits_value (acc : Z) (previous_is_digit : bool) (l : list ascii) : option Z :=
  match l with
  | [] => if previous_is_digit then Some acc else None
  | ch :: l' =>
      if is_digit ch
      then digits_value (10 * acc + Z.of_nat (nat_of_ascii ch - 48)) true l'
      else if Ascii.eqb ch "_" && previous_is_digit
           then digits_value acc false l'
           else None
  end.

Definition int_of_ascii (text : string) : result Z :=
  let invalid := Raise (ValueError ("invalid literal for int() with base 10: " ++ text)) in
  match strip (list_ascii_of_string text) with
  | ch :: l =>
      if Ascii.eqb ch "-"
      then match digits_value 0 false l with Some n => Return (- n) | None => invalid end
      else if Ascii.eqb ch "+"
           then match digits_value 0 false l with Some n => Return n | None => invalid end
           else match digits_value 0 false (ch :: l) with
                | Some n => Return n
                | None => invalid
                end
  | [] => invalid
  end.

(** [int(text)] *)
Definition int_of_str `{Unicode} (text : string) : result Z :=
  if is_ascii text then int_of_ascii text else unicode_int text.

(** [text.split(sep)] for a one-character separator. *)
Fixpoint split_on (sep : ascii) (current : string) (text : string) : list string :=
  match text with
  | EmptyString => [current]
  | String ch text' =>
      if Ascii.eqb ch sep
      then current :: split_on sep EmptyString text'
      else split_on sep (current ++ String ch EmptyString) text'
  end.

(** [needle in hay] on strings *)
Fixpoint str_in (needle hay : string) : bool :=
  String.prefix needle hay
  || match hay with
     | EmptyString => false
     | String _ hay' => str_in needle hay'
     end.

(** [start, stop = [int(part) for part in v.split("_")]] *)
Definition parse_range `{Unicode} (v : string) : result Interval :=
  let fix ints (parts : list string) : result (list Z) :=
    match parts with
    | [] => Return []
    | part :: parts' =>
        rbind (int_of_str part) (fun n => rbind (ints parts') (fun ns => Return (n :: ns)))
    end in
  rbind (ints (split_on "_" EmptyString v))
        (fun ns =>
           match ns with
           | [a; b] => Return (slice a b)
           | _ => Raise (ValueError "wrong number of values to unpack")
           end).

(** The loop of [predict] over [request.args.items()]. *)
Fixpoint roi_params_of `{Unicode} (items : list (string * string))
         (roi_params : list (string * Interval))
  : result (list (string * Interval)) :=
  match items with
  | [] => Return roi_params
  | (axis, v) :: items' =>
      if str_in axis "tcxyz"
      then rbind (parse_range v)
                 (fun slc => roi_params_of items' (roi_params ++ [(axis, slc)])%list)
      else roi_params_of items' roi_params
  end.

(** [Slice5D] applied to the keywords [roi_params]: a keyword that is not an
    axis label is refused. *)
Fixpoint Slice5D_of (roi_params : list (string * Interval)) (acc : Slice5D) : result Slice5D :=
  match roi_params with
  | [] => Return acc
  | (axis, slc) :: rest =>
      let s := Some slc in
      if String.eqb axis "t"
      then Slice5D_of rest (mkAxes s (c_ acc) (x_ acc) (y_ acc) (z_ acc))
      else if String.eqb axis "c"
      then Slice5D_of rest (mkAxes (t_ acc) s (x_ acc) (y_ acc) (z_ acc))
      else if String.eqb axis "x"
      then Slice5D_of rest (mkAxes (t_ acc) (c_ acc) s (y_ acc) (z_ acc))
      else if String.eqb axis "y"
      then Slice5D_of rest (mkAxes (t_ acc) (c_ acc) (x_ acc) s (z_ acc))
      else if String.eqb axis "z"
      then Slice5D_of rest (mkAxes (t_ acc) (c_ acc) (x_ acc) (y_ acc) s)
      else Raise (TypeError ("unexpected keyword argument " ++ axis))
  end.

(** [Slice5D(c=channel)] for an integer channel. *)
Definition Slice5D_channel (channel : Z) : Slice5D :=
  mkAxes None (Some (slice channel (channel + 1))) None None None.

Section Wire_adapters.
Context `{Deployment} `{!Unicode}.

(** The tail of [predict]: from the prediction buffer and the channel to
    the PNG response. *)
Definition render_channel (channel : Z) (predictions : Array5D scalar) : result Response :=
  rbind (raw_yx (as_uint8 true (cut predictions (Slice5D_channel channel))))
        (fun data => Return (mkResponse 200 "image/png" (png_save data))).

(** [int(request.args.get("channel", 0))] *)
Definition channel_of (req : Request) : result Z :=
  match args_get "channel" (args req) with
  | Some v => int_of_str v
  | None => Return 0
  end.

(** The head of [predict]: from the query arguments to the prediction
    buffer. *)
Definition requested_predictions (picks : list nat) (req : Request)
  : M (Array5D scalar) :=
  let* roi_params := lift (roi_params_of (args req) []) in
  let* roi := lift (Slice5D_of roi_params Slice5D_all) in
  let* classifier_id := lift (args_item "pixel_classifier_id" (args req)) in
  let* datasource_id := lift (args_item "data_source_id" (args req)) in
  do_predictions picks roi classifier_id datasource_id.

(** [GET /predict/] *)
Definition predict (picks : list nat) (req : Request) : M Response :=
  let* predictions := requested_predictions picks req in
  let* channel := lift (channel_of req) in
  lift (render_channel channel predictions).

(** [GET /predictions/<classifier_id>/<datasource_id>/data/...] *)
Definition ng_predict (picks : list nat) (classifier_id datasource_id : string)
           (xBegin xEnd yBegin yEnd zBegin zEnd : Z) : M Response :=
  let requested_roi :=
    mkAxes None None (Some (slice xBegin xEnd)) (Some (slice yBegin yEnd))
           (Some (slice zBegin zEnd)) in
  let* predictions := do_predictions picks requested_roi classifier_id datasource_id in
  let* chunk := lift (tobytes_F_xyzc (as_uint8 true predictions)) in
  ret (mkResponse 200 "application/octet-stream" chunk).

(** [GET /predictions/<classifier_id>/<datasource_id>/info/] *)
Definition info_dict (classifier_id datasource_id : string) : M Response :=
  let* classifier := Context.load classifier_id in
  let* datasource := Context.load datasource_id in
  let* classifier := lift (as_classifier "get_expected_roi" classifier) in
  let* datasource := lift (as_datasource "roi" datasource) in
  let expected_predictions_shape :=
    shape_of (cl_get_expected_roi classifier (full (ds_shape datasource))) in
  ret (jsonify (info_document expected_predictions_shape (ds_tile_shape datasource))).

End Wire_adapters.

(* ===================================================================== *)
(** ** A concrete deployment                                              *)
(* ===================================================================== *)

(** Integer samples, a two-channel classifier over small single-channel
    images, and a registry that holds them. *)
Module Examples.

Definition numeric : Numeric :=
  {| scalar := Z; zero := 0; to_uint8 := fun _ v => byte_of_ascii (ascii_of_N (Z.to_N (v mod 256))) |}.
#[local] Existing Instance numeric.

(** The examples send ASCII text only, so what this instance answers is
    never looked at. *)
Definition unicode : Unicode :=
  {| unicode_title := fun _ => EmptyString;
     unicode_title_lowercase := fun _ => eq_refl;
     unicode_int := fun text => Raise (ValueError text);
     unicode_json_string := fun _ => EmptyString |}.
#[local] Existing Instance unicode.

(** The [id] of a payload whose form and files have no nested keys. *)
Definition flat_id (payload : gmap string pvalue) : result (option string) :=
  match payload !! "id" with
  | Some (PStr s) => Return (Some s)
  | Some _ => Return (Some "object")
  | None => Return None
  end.

(** A deployment with a debugger attached to the hook. *)
Definition deployment : Deployment :=
  {| pydevd_settrace := None;
     from_json_data := fun klass _ => Return (ObjOpaque klass "from_json_data");
     payload_id := flat_id;
     show_channels := fun _ => Return tt;
     png_save := fun rows => List.concat rows |}.

(** The same deployment on a machine without the debugger package. *)
Definition deployment_without_pydevd : Deployment :=
  {| pydevd_settrace := Some NotInstalled;
     from_json_data := fun klass _ => Return (ObjOpaque klass "from_json_data");
     payload_id := flat_id;
     show_channels := fun _ => Return tt;
     png_save := fun rows => List.concat rows |}.

(** The same deployment with the package installed and no debugger
    listening. *)
Definition deployment_without_debugger : Deployment :=
  {| pydevd_settrace := Some NotListening;
     from_json_data := fun klass _ => Return (ObjOpaque klass "from_json_data");
     payload_id := flat_id;
     show_channels := fun _ => Return tt;
     png_save := fun rows => List.concat rows |}.

Definition N5DataSource_class := mkClass "N5DataSource" ["DataSource"].

(** A single-channel image of [n] by [n] pixels in tiles of [tile] by
    [tile]; the pixel at (x, y) holds [x + 10 * y]. *)
Definition image (n tile : Z) : DataSource :=
  mkDataSource N5DataSource_class "sample"
    (mkAxes 1 1 n n 1) (mkAxes 1 1 tile tile 1)
    (fun r => Return (mkArray r (fun p => x_ p + 10 * y_ p) (fun _ => O))).

(** A classifier with two output channels: channel [c] of a pixel holds
    the pixel's value plus [100 * c]. It fails on the tiles that
    [fails_on] selects. *)
Definition two_channels (fails_on : ROI -> bool) : Classifier :=
  mkClassifier VigraPixelClassifier_class
    (fun r => with_channels r 2)
    (fun tile =>
       if fails_on (dss_roi tile)
       then Raise (PyException "prediction failed")
       else rbind (ds_retrieve (dss_datasource tile) (dss_roi tile))
              (fun data =>
                 Return (mkArray (with_channels (dss_roi tile) 2)
                           (fun p => arr_data data (mkAxes (t_ p) 0 (x_ p) (y_ p) (z_ p))
                                     + 100 * c_ p)
                           (fun _ => O)))).

Definition classifier : Classifier := two_channels (fun _ => false).

(** Fails on the tile whose corner is x = 2, y = 0. *)
Definition faulty_classifier : Classifier :=
  two_channels (fun r => (start (x_ r) =? 2) && (start (y_ r) =? 0)).

Definition objects : gmap string pyobject :=
  <["pointer@image" := ObjDataSource (image 4 2)]>
  (<["pointer@small" := ObjDataSource (image 5 2)]>
  (<["pointer@large" := ObjDataSource (image 10 4)]>
  (<["pointer@classifier" := ObjClassifier classifier]>
  (<["pointer@faulty" := ObjClassifier faulty_classifier]>
  (<["pointer@smoothing" := ObjOpaque GaussianSmoothing_class "sigma=0.3"]> ∅))))).

End Examples.

(* ===================================================================== *)
(** ** The remaining routes of [server.py]                                *)
(* ===================================================================== *)

(** What the listing and raw-data routes call but do not define.
    - [to_json]: the [to_json()] method of a stored object.
    - [jsonify_objects]: [JsonSerializable.jsonify] of a dictionary of
      objects.
    - [tobytes]: the bytes of one sample of source data, as numpy's
      [tobytes] lays them out. *)
Class Serialization `{Numeric} := {
  to_json : pyobject -> result string;
  jsonify_objects : gmap string pyobject -> result string;
  tobytes : scalar -> list byte
}.

(** Modelled from the spec: the cells of the [x, y, z, channel] view in
    Fortran order, for any cell type (see [tobytes_F_xyzc]). *)
Definition raw_xyzc_F {A} (a : Array5D A) : result (list A) :=
  let r := arr_roi a in
  if extent (t_ r) =? 1 then
    Return
      (flat_map (fun c =>
       flat_map (fun z =>
       flat_map (fun y =>
       map (fun x => arr_data a (mkAxes (start (t_ r)) c x y z)) (range (x_ r)))
         (range (y_ r)))
         (range (z_ r)))
         (range (c_ r)))
  else Raise (AssertionError "raw: dropped axis is not a singleton").

Section More_routes.
Context `{Deployment} `{!Serialization} `{!Unicode}.

(** [GET /datasource/<datasource_id>/data/...]. The data source resolves
    the requested slice against its own shape; whatever [retrieve] raises
    leaves the view function. *)
Definition ng_raw (datasource_id : string) (xBegin xEnd yBegin yEnd zBegin zEnd : Z)
  : M Response :=
  let requested_roi :=
    mkAxes None None (Some (slice xBegin xEnd)) (Some (slice yBegin yEnd))
           (Some (slice zBegin zEnd)) in
  let* datasource := Context.load datasource_id in
  let* datasource := lift (as_datasource "retrieve" datasource) in
  let* data := lift (ds_retrieve datasource (resolve requested_roi (ds_shape datasource))) in
  let* cells := lift (raw_xyzc_F data) in
  ret (mkResponse 200 "application/octet-stream" (flat_map tobytes cells)).

(** [GET /datasource/<datasource_id>/info] *)
Definition datasource_info_dict (datasource_id : string) : M Response :=
  let* datasource := Context.load datasource_id in
  let* datasource := lift (as_datasource "shape" datasource) in
  ret (jsonify (info_document (ds_shape datasource) (ds_tile_shape datasource))).

(** The dictionary comprehension of [get_all] when [klass] is the [None]
    that [get_class_named] can return: [isinstance(obj, None)] raises on the
    first entry, so only an empty registry gets through. *)
Definition get_all_resolved (klass : option pyclass) : M (gmap string pyobject) :=
  match klass with
  | Some klass => Context.get_all klass
  | None =>
      fun objects =>
        if (size objects =? 0)%nat
        then (Return ∅, objects)
        else (Raise (TypeError "isinstance() arg 2 must be a type"), objects)
  end.

(** [GET /<class_name>/] *)
Definition list_objects (class_name : string) : M Response :=
  let* klass := lift (get_class_named class_name) in
  let* found := get_all_resolved klass in
  let* text := lift (jsonify_objects found) in
  ret (mkResponse 200 "application/json" (list_byte_of_string text)).

(** [GET /<class_name>/<object_id>]. [klass] is computed and not used. *)
Definition show_object (class_name object_id : string) : M Response :=
  let* klass := lift (get_class_named class_name) in
  let* obj := Context.load object_id in
  let* text := lift (to_json obj) in
  ret (mkResponse 200 "application/json" (list_byte_of_string text)).

End More_routes.

(** Number of occurrences of a character in a string. *)
Fixpoint count_char (ch : ascii) (s : string) : nat :=
  match s with
  | EmptyString => O
  | String ch' s' => ((if Ascii.eqb ch' ch then 1 else 0) + count_char ch s')%nat
  end.

(** The keywords that [Slice5D] accepts. *)
Definition is_axis_label (axis : string) : bool :=
  String.eqb axis "t" || String.eqb axis "c" || String.eqb axis "x"
  || String.eqb axis "y" || String.eqb axis "z".

(* ===================================================================== *)
(** ** [splitBodyCarvingGui.py]: the layers of the split-body carving view *)
(* ===================================================================== *)

Module SplitBodyCarvingGui.

(** [QColor(r, g, b, a).rgba()]: the unsigned 32-bit value 0xAARRGGBB. *)
Definition rgba (r g b a : Z) : Z :=
  Z.lor (Z.shiftl a 24) (Z.lor (Z.shiftl r 16) (Z.lor (Z.shiftl g 8) b)).

(** The attributes of a layer that [setupLayers] reads or writes. [slot] is
    the operator slot behind the layer's data source; [opacity] is the
    decimal literal of the source. *)
Record Layer := mkLayer {
  name : string;
  visible : bool;
  opacity : Q;
  colortable : list Z;
  slot : string
}.

Definition set_visible (v : bool) (layer : Layer) : Layer :=
  mkLayer (name layer) v (opacity layer) (colortable layer) (slot layer).

(** Which of the operator's slots are [ready()]. *)
Record Slots := mkSlots {
  HighlightedRavelerObject : bool;
  RavelerLabels : bool;
  MaskedSegmentation : bool
}.

(** Layers are objects: a list of layers is a list of references into the
    store of layer objects, so that [carvingSeg.visible = False] is seen
    through every reference to that layer. *)
Definition new_layer (layer : Layer) (store : gmap nat Layer) : nat * gmap nat Layer :=
  let ref := fresh (dom store) in (ref, <[ref := layer]> store).

(** The local function [findLayer]. *)
Fixpoint findLayer {A} (f : A -> bool) (layerlist : list A) : option A :=
  match layerlist with
  | [] => None
  | l :: layerlist' => if f l then Some l else findLayer f layerlist'
  end.

(** [lambda l: l.name == text] on a reference. *)
Definition name_is (store : gmap nat Layer) (text : string) (ref : nat) : bool :=
  match store !! ref with
  | Some layer => String.eqb (name layer) text
  | None => false
  end.

(** The colour table of the Raveler labels: 256 colours, three draws of
    [numpy.random.randint(0, 255)] each; [randint k] is the [k]-th draw. *)
Definition random_colortable (randint : nat -> Z) : list Z :=
  map (fun i => rgba (randint (3 * i)%nat) (randint (3 * i + 1)%nat)
                     (randint (3 * i + 2)%nat) 255)
      (seq 0 256).

(** [setupLayers]. [carvingLayers] is what [CarvingGui.setupLayers]
    returned and [store] the layer objects after that call. *)
Definition setupLayers (slots : Slots) (randint : nat -> Z) (carvingLayers : list nat)
           (store : gmap nat Layer) : list nat * gmap nat Layer :=
  let layers : list nat := [] in
  let '(layers, store) :=
    if HighlightedRavelerObject slots
    then let '(highlightedObjectLayer, store) :=
           new_layer (mkLayer "Current Raveler Object" true (25 # 100)
                              [rgba 0 0 0 0; rgba 0 0 255 255]
                              "HighlightedRavelerObject") store in
         ((layers ++ [highlightedObjectLayer])%list, store)
    else (layers, store) in
  let '(layers, store) :=
    if RavelerLabels slots
    then let '(ravelerLabelLayer, store) :=
           new_layer (mkLayer "Raveler Labels" false (4 # 10)
                              (random_colortable randint) "RavelerLabels") store in
         ((layers ++ [ravelerLabelLayer])%list, store)
    else (layers, store) in
  let '(layers, store) :=
    if MaskedSegmentation slots
    then let '(maskedSegLayer, store) :=
           new_layer (mkLayer "Masked Segmentation" true (3 # 10)
                              [rgba 0 0 0 0; rgba 0 0 0 0; rgba 0 255 0 255]
                              "MaskedSegmentation") store in
         let layers := (layers ++ [maskedSegLayer])%list in
         match findLayer (name_is store "segmentation") carvingLayers with
         | Some carvingSeg => (layers, alter (set_visible false) carvingSeg store)
         | None => (layers, store)
         end
    else (layers, store) in
  ((layers ++ carvingLayers)%list, store).

(** The new layers that [setupLayers] puts in front, by name. *)
Definition added_names (slots : Slots) : list string :=
  ((if HighlightedRavelerObject slots then ["Current Raveler Object"] else [])
   ++ (if RavelerLabels slots then ["Raveler Labels"] else [])
   ++ (if MaskedSegmentation slots then ["Masked Segmentation"] else []))%list.

End SplitBodyCarvingGui.

(** A deployment without a display, whose feature extractors insist on a
    [sigma] field, and the serialisers of the listing routes. *)
Module More_examples.

#[local] Existing Instance Examples.numeric.
#[local] Existing Instance Examples.unicode.

Definition headless_deployment : Deployment :=
  {| pydevd_settrace := None;
     from_json_data := fun klass payload =>
       if issubclass klass FeatureExtractor_class
       then match payload !! "sigma" with
            | Some _ => Return (ObjOpaque klass "feature extractor")
            | None => Raise (FeatureDataMismatchException "sigma is missing")
            end
       else Return (ObjOpaque klass "from_json_data");
     payload_id := Examples.flat_id;
     show_channels := fun _ => Raise (PyException "cannot open display");
     png_save := fun rows => List.concat rows |}.

Definition serialization : Serialization :=
  {| to_json := fun obj => Return ("{" ++ json_string "class" ++ ":"
                                   ++ json_string (cls_name (type_of obj)) ++ "}");
     jsonify_objects := fun found => Return (pretty (size found));
     tobytes := fun v => [byte_of_ascii (ascii_of_N (Z.to_N (v mod 256)))] |}.

(** A data source whose [retrieve] refuses every request. *)
Definition mismatched_source : DataSource :=
  mkDataSource Examples.N5DataSource_class "mismatched"
    (mkAxes 1 1 4 4 1) (mkAxes 1 1 2 2 1)
    (fun _ => Raise (FeatureDataMismatchException "wrong number of channels")).

(** A classifier whose tiles all fail with the feature mismatch. *)
Definition mismatched_classifier : Classifier :=
  mkClassifier VigraPixelClassifier_class
    (fun r => with_channels r 2)
    (fun _ => Raise (FeatureDataMismatchException "wrong number of channels")).

Definition objects : gmap string pyobject :=
  <["pointer@mismatched" := ObjDataSource mismatched_source]>
  (<["pointer@strict" := ObjClassifier mismatched_classifier]> Examples.objects).

End More_examples.

(** A source of two channels whose tiles hold one channel each, under the
    two-channel classifier of [Examples]. *)
Module Channel_examples.

#[local] Existing Instance Examples.numeric.

Definition two_channel_image : DataSource :=
  mkDataSource Examples.N5DataSource_class "two channels"
    (mkAxes 1 2 4 4 1) (mkAxes 1 1 2 2 1)
    (fun r => Return (mkArray r (fun p => x_ p + 10 * y_ p) (fun _ => O))).

Definition objects : gmap string pyobject :=
  <["pointer@two_channels" := ObjDataSource two_channel_image]> Examples.objects.

End Channel_examples.

(** Three carving layers, two of which are named "segmentation". *)
Module Layer_examples.
Import SplitBodyCarvingGui.

Definition carving_store : gmap nat Layer :=
  <[0%nat := mkLayer "raw" true 1 [] "InputData"]>
  (<[1%nat := mkLayer "segmentation" true (1 # 2) [] "Segmentation"]>
  (<[2%nat := mkLayer "segmentation" true (1 # 2) [] "DoneSegmentation"]> ∅)).

Definition carvingLayers : list nat := [0; 1; 2]%nat.

Definition only_masked : Slots := mkSlots false false true.

End Layer_examples.

(* ===================================================================== *)
(** * Properties of the registry                                          *)
(* ===================================================================== *)

Section Registry_properties.
Context `{Numeric}.
Implicit Types (objects : gmap string pyobject) (obj X Y : pyobject).
Implicit Types (key id uuid : string) (klass : pyclass).

Lemma load_Some key obj objects :
  objects !! key = Some obj -> Context.load key objects = (Return obj, objects).
Proof. intros Hkey. unfold Context.load. by rewrite Hkey. Qed.

Lemma load_None key objects :
  objects !! key = None -> Context.load key objects = (Raise (KeyError key), objects).
Proof. intros Hkey. unfold Context.load. by rewrite Hkey. Qed.

Lemma store_spec uuid (obj_id : option string) obj objects :
  Context.store uuid obj_id obj objects
  = (Return ("pointer@" ++ default uuid obj_id),
     <["pointer@" ++ default uuid obj_id := obj]> objects).
Proof. unfold Context.store. by destruct obj_id. Qed.

Lemma remove_None (k : option pyclass) key objects :
  objects !! key = None ->
  Context.remove k key objects = (Raise (KeyError key), objects).
Proof. intros Hkey. unfold Context.remove. by rewrite Hkey. Qed.

(** C4. [store(id, X)] returns the handle ["pointer@" + id]; loading the
    handle that [store(None, X)] returns gives back [X]; and after
    [store(id, X)] and [store(id, Y)] the handle loads [Y]. *)
Theorem store_load_last_write_wins uuid uuid' id X Y objects :
  (Context.store uuid (Some id) X objects).1 = Return ("pointer@" ++ id)
  /\ (let* handle := Context.store uuid None X in Context.load handle) objects
     = (Return X, <["pointer@" ++ uuid := X]> objects)
  /\ (let* _ := Context.store uuid (Some id) X in
      let* handle := Context.store uuid' (Some id) Y in
      Context.load handle) objects
     = (Return Y, <["pointer@" ++ id := Y]> objects).
Proof.
  split; [by rewrite store_spec |].
  split.
  - unfold bind. rewrite store_spec. simpl.
    apply load_Some, lookup_insert_eq.
  - unfold bind. rewrite !store_spec. simpl.
    rewrite insert_insert_eq.
    apply load_Some, lookup_insert_eq.
Qed.

(** C5. Removing an entry under a class that its object is not an instance
    of raises the "Unexpected class" exception and leaves the registry as
    it was: loading the handle afterwards still returns the object. *)
Theorem remove_wrong_type_keeps_entry klass key obj objects :
  objects !! key = Some obj ->
  issubclass (type_of obj) klass = false ->
  exists msg,
    Context.remove (Some klass) key objects = (Raise (PyException msg), objects)
    /\ Context.load key (Context.remove (Some klass) key objects).2
       = (Return obj, objects).
Proof.
  intros Hkey Hsub.
  unfold Context.remove. rewrite Hkey. simpl. rewrite Hsub. simpl.
  eexists. split; [reflexivity |].
  by apply load_Some.
Qed.

(** C9. [get_all(klass)] returns exactly the entries of the registry whose
    object is an instance of [klass], and does not change the registry. *)
Theorem get_all_exact klass objects :
  exists found,
    Context.get_all klass objects = (Return found, objects)
    /\ forall key obj,
         found !! key = Some obj
         <-> objects !! key = Some obj /\ issubclass (type_of obj) klass = true.
Proof.
  eexists. split; [reflexivity |].
  intros key obj. by rewrite map_lookup_filter_Some.
Qed.

End Registry_properties.

Section Route_properties.
Context `{Deployment} `{!Unicode}.
Implicit Types (objects : gmap string pyobject).

Lemma get_class_named_unknown name :
  workflow_classes !! name = None ->
  workflow_classes !! remove_char "_" (title name) = None ->
  get_class_named name
  = match pydevd_settrace with
    | None => Return None
    | Some failure => Raise (debugger_exception failure)
    end.
Proof.
  intros Hname Htitle. unfold get_class_named, normalized_name, known_class.
  rewrite Hname. by rewrite Htitle.
Qed.

Lemma debugger_exception_status (failure : debugger_failure) :
  flask_response (Raise (debugger_exception failure))
  = mkResponse 500 "text/html" (list_byte_of_string "Internal Server Error").
Proof. by destruct failure. Qed.

Lemma payload_of_form_keeps_objects items payload objects :
  (payload_of_form items payload objects).2 = objects.
Proof.
  revert payload. induction items as [|[k v] items IH]; intros payload; [done |].
  simpl. destruct (String.prefix _ v); [| apply IH].
  unfold bind, Context.load. destruct (objects !! v); [apply IH | done].
Qed.

Lemma payload_of_form_outcome items payload objects :
  (exists p, (payload_of_form items payload objects).1 = Return p)
  \/ (exists key, (payload_of_form items payload objects).1 = Raise (KeyError key)).
Proof.
  revert payload. induction items as [|[k v] items IH]; intros payload.
  - left. by eexists.
  - simpl. destruct (String.prefix _ v); [| apply IH].
    unfold bind, Context.load. destruct (objects !! v); [apply IH |].
    right. by eexists.
Qed.

(** C3, as the code has it. A class name that is not in the allow-list,
    verbatim or after [title()] and the removal of underscores, makes
    [POST /<class_name>/] fail with an exception that no handler is
    registered for, so the client receives status 500; the registry is
    unchanged and no constructor has run: the exception is the one that the
    debugger hook raises, or, when the hook returns, the [KeyError] of the
    payload lookup or the [AttributeError] of the attribute lookup on
    [None]. *)
Theorem create_unknown_class_fails uuid req class_name objects :
  workflow_classes !! class_name = None ->
  workflow_classes !! remove_char "_" (title class_name) = None ->
  let outcome := create_object uuid req class_name objects in
  outcome.2 = objects
  /\ status (flask_response outcome.1) = 500
  /\ ((exists failure, pydevd_settrace = Some failure
                       /\ outcome.1 = Raise (debugger_exception failure))
      \/ (pydevd_settrace = None /\ outcome.1 = Raise (AttributeError "from_json_data"))
      \/ (pydevd_settrace = None /\ exists key, outcome.1 = Raise (KeyError key))).
Proof.
  intros Hname Htitle outcome. subst outcome.
  unfold create_object, bind, lift.
  rewrite (get_class_named_unknown _ Hname Htitle).
  destruct pydevd_settrace as [failure|].
  { cbn [fst snd]. rewrite debugger_exception_status. split; [done |]. split; [done |].
    left. by eexists. }
  unfold create, get_request_payload, bind, lift, ret.
  pose proof (payload_of_form_keeps_objects (form req) ∅ objects) as Hkeep.
  destruct (payload_of_form_outcome (form req) ∅ objects) as [[p Hp]|[key Hkey]];
    destruct (payload_of_form (form req) ∅ objects) as [r objects'];
    simpl in *; subst; simpl; eauto 8.
Qed.

(** C6, as the code has it. Removing a handle that the registry does not
    hold raises [KeyError] and leaves the registry unchanged. The DELETE
    route raises too, so it never answers 200, and leaves the registry
    unchanged; what the client receives is the status 500 page that Flask
    sends for every exception without a handler, and the exception behind
    it is that [KeyError] only when [get_class_named] returned. *)
Theorem remove_unknown_handle (k : option pyclass) class_name key objects :
  objects !! key = None ->
  Context.remove k key objects = (Raise (KeyError key), objects)
  /\ (let outcome := remove_object class_name key objects in
      outcome.2 = objects
      /\ is_raise outcome.1 = true
      /\ flask_response outcome.1
         = mkResponse 500 "text/html" (list_byte_of_string "Internal Server Error")
      /\ (forall resolved, get_class_named class_name = Return resolved ->
          outcome.1 = Raise (KeyError key))
      /\ (forall e, get_class_named class_name = Raise e -> outcome.1 = Raise e)).
Proof.
  intros Hkey. split; [by apply remove_None |].
  unfold remove_object, bind, lift. simpl.
  destruct (get_class_named class_name) as [klass|e] eqn:Hclass.
  - rewrite (remove_None _ _ _ Hkey). simpl. repeat split; auto.
    intros e Hfail. discriminate Hfail.
  - unfold get_class_named in Hclass.
    destruct (workflow_classes !! normalized_name class_name); [discriminate |].
    destruct pydevd_settrace as [failure|]; [| discriminate].
    injection Hclass as <-. cbn [fst snd].
    rewrite debugger_exception_status. repeat split; auto.
    + intros resolved Hres. discriminate Hres.
    + by intros e [= <-].
Qed.

End Route_properties.

(* ===================================================================== *)
(** * Properties of the geometry                                          *)
(* ===================================================================== *)

Lemma count_app {A} (f : A -> bool) (l k : list A) :
  count f (l ++ k)%list = (count f l + count f k)%nat.
Proof. induction l as [|a l IH]; simpl; [done | rewrite IH; lia]. Qed.

Lemma count_ext {A} (f g : A -> bool) (l : list A) :
  (forall a, a ∈ l -> f a = g a) -> count f l = count g l.
Proof.
  induction l as [|a l IH]; intros Hfg; simpl; [done |].
  rewrite (Hfg a) by left. rewrite IH; [done |].
  intros b Hb. apply Hfg. by right.
Qed.

Lemma count_map {A B} (f : B -> bool) (g : A -> B) (l : list A) :
  count f (map g l) = count (fun a => f (g a)) l.
Proof. induction l as [|a l IH]; simpl; [done | by rewrite IH]. Qed.

Lemma count_Permutation {A} (f : A -> bool) (l k : list A) :
  Permutation l k -> count f l = count f k.
Proof. induction 1; simpl; lia. Qed.

Lemma count_false {A} (l : list A) : count (fun _ => false) l = O.
Proof. by induction l. Qed.

(** Counting in a concatenation of blocks, when the count in the block of
    [a] is [n] if [q a] holds and 0 otherwise. *)
Lemma count_flat_map {A B} (f : B -> bool) (q : A -> bool) (n : nat)
      (blocks : A -> list B) (l : list A) :
  (forall a, count f (blocks a) = if q a then n else O) ->
  count f (flat_map blocks l) = (count q l * n)%nat.
Proof.
  intros Hblock. induction l as [|a l IH]; simpl; [done |].
  rewrite count_app, IH, Hblock. destruct (q a); lia.
Qed.

Lemma count_elem_pos {A} (f : A -> bool) (l : list A) (a : A) :
  a ∈ l -> f a = true -> (0 < count f l)%nat.
Proof.
  induction 1 as [a l|a b l _ IH]; simpl; intros Hfa.
  - rewrite Hfa. lia.
  - specialize (IH Hfa). lia.
Qed.

Lemma count_pos_elem {A} (f : A -> bool) (l : list A) :
  (0 < count f l)%nat -> exists a, a ∈ l /\ f a = true.
Proof.
  induction l as [|a l IH]; simpl; [lia |].
  destruct (f a) eqn:Hfa; intros Hpos.
  - exists a. split; [left | done].
  - destruct (IH Hpos) as (b & Hb & Hfb). exists b. split; [by right | done].
Qed.

Lemma contains_iff (i : Interval) (v : Z) :
  contains i v = true <-> start i <= v < stop i.
Proof. unfold contains. rewrite andb_true_iff, Z.leb_le, Z.ltb_lt. tauto. Qed.

Lemma contains_intersect_axis (i j : Interval) (v : Z) :
  contains (intersect_axis i j) v = contains i v && contains j v.
Proof.
  apply eq_true_iff_eq.
  rewrite andb_true_iff, !contains_iff. unfold intersect_axis. simpl. lia.
Qed.

Lemma in_roi_intersect (a b : ROI) (p : Point5D) :
  in_roi (intersect a b) p = in_roi a p && in_roi b p.
Proof.
  unfold in_roi, intersect. simpl. rewrite !contains_intersect_axis.
  repeat match goal with |- context [contains ?i ?v] =>
    is_var i || (destruct (contains i v); simpl) end; try reflexivity.
  all: repeat destruct (contains _ _); reflexivity.
Qed.

(** One axis of the grid: a point of the range lies in exactly one tile, a
    point outside it in none. *)
Lemma count_split_from (fuel : nat) (lo hi stride v : Z) :
  0 < stride -> hi - lo <= Z.of_nat fuel ->
  count (fun i => contains i v) (split_from fuel lo hi stride)
  = if (lo <=? v) && (v <? hi) then 1%nat else O.
Proof.
  intros Hstride. revert lo.
  induction fuel as [|fuel IH]; intros lo Hfuel; simpl.
  - destruct (Z.leb_spec lo v), (Z.ltb_spec v hi); simpl; lia.
  - destruct (Z.ltb_spec lo hi) as [Hlt|Hge]; simpl.
    + rewrite IH by lia. unfold contains. simpl.
      destruct (Z.leb_spec lo v), (Z.ltb_spec v hi),
        (Z.leb_spec (lo + stride) v), (Z.ltb_spec v (Z.min (lo + stride) hi));
        simpl; lia.
    + destruct (Z.leb_spec lo v), (Z.ltb_spec v hi); simpl; lia.
Qed.

Lemma count_split_axis (i : Interval) (stride v : Z) :
  0 < stride ->
  count (fun tile => contains tile v) (split_axis i stride)
  = if contains i v then 1%nat else O.
Proof.
  intros Hstride. unfold split_axis, contains.
  apply count_split_from; [done | lia].
Qed.

(** Every tile of an axis lies within the range that was split. *)
Lemma split_from_within (fuel : nat) (lo hi stride : Z) (tile : Interval) :
  0 < stride -> tile ∈ split_from fuel lo hi stride ->
  lo <= start tile /\ start tile < stop tile <= hi.
Proof.
  intros Hstride. revert lo.
  induction fuel as [|fuel IH]; intros lo Hin; simpl in Hin.
  - by apply elem_of_nil in Hin.
  - destruct (Z.ltb_spec lo hi) as [Hlt|Hge]; [| by apply elem_of_nil in Hin].
    apply elem_of_cons in Hin as [-> | Hin]; simpl; [lia |].
    apply IH in Hin. lia.
Qed.

(** A range that fits in one stride is a single tile. *)
Lemma split_axis_single (i : Interval) (stride : Z) :
  start i < stop i -> stop i - start i <= stride ->
  split_axis i stride = [i].
Proof.
  intros Hne Hfit. unfold split_axis.
  destruct (Z.to_nat (stop i - start i)) as [|fuel] eqn:Hfuel; [lia |].
  simpl. destruct (Z.ltb_spec (start i) (stop i)); [| lia].
  replace (Z.min (start i + stride) (stop i)) with (stop i) by lia.
  destruct i as [lo hi]; simpl in *. f_equal.
  destruct fuel; simpl; [done |].
  destruct (Z.ltb_spec (lo + stride) hi); [lia | done].
Qed.

Lemma count_flat_map_guard {A B} (f : B -> bool) (b : bool) (q : A -> bool) (n : nat)
      (blocks : A -> list B) (l : list A) :
  (forall a, count f (blocks a) = if b && q a then n else O) ->
  count f (flat_map blocks l) = if b then (count q l * n)%nat else O.
Proof.
  intros Hblock. destruct b; simpl in Hblock; [by apply count_flat_map |].
  induction l as [|a l IH]; simpl; [done |].
  by rewrite count_app, IH, Hblock.
Qed.

Lemma count_andb_guard {A} (b : bool) (f : A -> bool) (l : list A) :
  count (fun a => b && f a) l = if b then count f l else O.
Proof. destruct b; simpl; [done | apply count_false]. Qed.

(** Counting in the grid factors over the axes. *)
Lemma count_tile_grid (ft fc fx fy fz : Interval -> bool) (r : ROI) (ts : Shape5D) :
  count (fun tile => ft (t_ tile) && fc (c_ tile) && fx (x_ tile)
                     && fy (y_ tile) && fz (z_ tile))
        (tile_grid r ts)
  = (count ft (split_axis (t_ r) (t_ ts)) * (count fc (split_axis (c_ r) (c_ ts))
     * (count fx (split_axis (x_ r) (x_ ts)) * (count fy (split_axis (y_ r) (y_ ts))
     * count fz (split_axis (z_ r) (z_ ts))))))%nat.
Proof.
  unfold tile_grid.
  apply count_flat_map; intros it.
  rewrite (count_flat_map_guard _ (ft it) fc
             (count fx (split_axis (x_ r) (x_ ts))
              * (count fy (split_axis (y_ r) (y_ ts))
                 * count fz (split_axis (z_ r) (z_ ts))))); [done |].
  intros ic.
  rewrite (count_flat_map_guard _ (ft it && fc ic) fx
             (count fy (split_axis (y_ r) (y_ ts))
              * count fz (split_axis (z_ r) (z_ ts)))); [done |].
  intros ix.
  rewrite (count_flat_map_guard _ (ft it && fc ic && fx ix) fy
             (count fz (split_axis (z_ r) (z_ ts)))); [done |].
  intros iy.
  rewrite count_map. simpl.
  apply (count_andb_guard (ft it && fc ic && fx ix && fy iy)).
Qed.

(** Every tile of the grid lies within the region that was tiled. *)
Lemma tile_grid_within (r : ROI) (ts : Shape5D) (tile : ROI) :
  0 < t_ ts -> 0 < c_ ts -> 0 < x_ ts -> 0 < y_ ts -> 0 < z_ ts ->
  tile ∈ tile_grid r ts ->
  within (t_ tile) (t_ r) /\ within (c_ tile) (c_ r) /\ within (x_ tile) (x_ r)
  /\ within (y_ tile) (y_ r) /\ within (z_ tile) (z_ r).
Proof.
  intros Ht Hc Hx Hy Hz Htile. unfold tile_grid in Htile.
  apply list_elem_of_In in Htile.
  apply in_flat_map in Htile as (it & Hit & Htile).
  apply in_flat_map in Htile as (ic & Hic & Htile).
  apply in_flat_map in Htile as (ix & Hix & Htile).
  apply in_flat_map in Htile as (iy & Hiy & Htile).
  apply in_map_iff in Htile as (iz & <- & Hiz).
  apply list_elem_of_In, split_from_within in Hit, Hic, Hix, Hiy, Hiz; try done.
  unfold within. simpl. lia.
Qed.

Lemma contains_within (a b : Interval) (v : Z) :
  within a b -> contains a v = true -> contains b v = true.
Proof. unfold within. rewrite !contains_iff. lia. Qed.

(** The grid is a partition of the region: every point of the region lies in
    exactly one tile and no tile reaches outside the region. *)
Lemma tile_grid_partition (r : ROI) (ts : Shape5D) (p : Point5D) :
  0 < t_ ts -> 0 < c_ ts -> 0 < x_ ts -> 0 < y_ ts -> 0 < z_ ts ->
  covering p (tile_grid r ts) = if in_roi r p then 1%nat else O.
Proof.
  intros Ht Hc Hx Hy Hz. unfold covering.
  etransitivity;
    [exact (count_tile_grid (fun i => contains i (t_ p)) (fun i => contains i (c_ p))
              (fun i => contains i (x_ p)) (fun i => contains i (y_ p))
              (fun i => contains i (z_ p)) r ts) |].
  rewrite !count_split_axis by done. unfold in_roi.
  repeat destruct (contains _ _); reflexivity.
Qed.

(* ===================================================================== *)
(** * Properties of the tiled prediction pipeline                         *)
(* ===================================================================== *)

Lemma schedule_aux_Permutation {A} (n : nat) (picks : list nat) (pending : list A) :
  length pending = n -> Permutation pending (schedule_aux n picks pending).
Proof.
  revert picks pending. induction n as [|n IH]; intros picks pending Hlen; simpl.
  - by destruct pending.
  - assert (Hlt : (hd O picks mod length pending < length pending)%nat)
      by (apply Nat.mod_upper_bound; lia).
    destruct (lookup_lt_is_Some_2 _ _ Hlt) as [a Ha]. rewrite Ha.
    rewrite (delete_Permutation _ _ _ Ha) at 1.
    constructor. apply IH.
    rewrite length_delete by eauto. lia.
Qed.

(** Every schedule runs every submitted task exactly once. *)
Lemma schedule_Permutation {A} (picks : list nat) (tasks : list A) :
  Permutation tasks (schedule picks tasks).
Proof. by apply schedule_aux_Permutation. Qed.

(** Conversely, every order of the submitted tasks is the schedule of some
    [picks]: the model leaves out no interleaving of whole tasks. *)
Lemma schedule_complete {A} (tasks order : list A) :
  Permutation tasks order -> exists picks, schedule picks tasks = order.
Proof.
  revert tasks. induction order as [|a order IH]; intros tasks Hperm.
  - apply Permutation_nil_r in Hperm as ->. by exists [].
  - assert (Ha : a ∈ tasks) by (rewrite Hperm; left).
    apply list_elem_of_lookup in Ha as [i Hi].
    pose proof (lookup_lt_Some _ _ _ Hi) as Hlt.
    assert (Hrest : Permutation (delete i tasks) order).
    { apply (Permutation_cons_inv (a := a)).
      by rewrite <- (delete_Permutation _ _ _ Hi). }
    destruct (IH _ Hrest) as [picks Hpicks].
    exists (i :: picks). unfold schedule.
    destruct (length tasks) as [|n] eqn:Hlen; [lia |].
    simpl. rewrite Hlen, Nat.mod_small, Hi by lia. f_equal.
    rewrite <- Hpicks. unfold schedule. f_equal.
    rewrite length_delete by eauto. lia.
Qed.

Section Pipeline_properties.
Context `{Numeric}.
Implicit Types (cl : Classifier) (ds : DataSource) (buffer : Array5D scalar).
Implicit Types (order : list DataSourceSlice) (p : Point5D).

Lemma executor_run_snoc cl order tile buffer :
  executor_run cl (order ++ [tile]) buffer
  = ((predict_tile cl (executor_run cl order buffer).1 tile).1,
     ((executor_run cl order buffer).2
      ++ [(predict_tile cl (executor_run cl order buffer).1 tile).2])%list).
Proof.
  unfold executor_run. rewrite foldl_app. simpl.
  match goal with |- context [foldl ?f ?a order] => destruct (foldl f a order) as [b fs] end.
  simpl. by destruct (predict_tile cl b tile).
Qed.

Lemma executor_run_roi cl order buffer :
  arr_roi (executor_run cl order buffer).1 = arr_roi buffer.
Proof.
  induction order as [|tile order IH] using rev_ind; [done |].
  rewrite executor_run_snoc. simpl. unfold predict_tile.
  by destruct (cl_predict cl tile).
Qed.

(** The write counter of a cell after a run: one more for each task that
    stored into it. *)
Lemma executor_run_writes cl order buffer p :
  arr_writes (executor_run cl order buffer).1 p
  = (arr_writes buffer p + count (tile_writes_cell cl (arr_roi buffer) p) order)%nat.
Proof.
  induction order as [|tile order IH] using rev_ind; [simpl; lia |].
  rewrite executor_run_snoc, count_app. simpl.
  unfold predict_tile, tile_writes_cell.
  destruct (cl_predict cl tile) as [prediction|e]; simpl.
  - rewrite executor_run_roi.
    destruct (in_roi _ p); rewrite IH; unfold tile_writes_cell; lia.
  - rewrite IH. unfold tile_writes_cell. lia.
Qed.


(** A cell that exactly one task stored into holds that task's
    prediction. *)
Lemma executor_run_written cl order buffer p tile prediction :
  tile ∈ order ->
  cl_predict cl tile = Return prediction ->
  in_roi (intersect (arr_roi prediction) (arr_roi buffer)) p = true ->
  count (tile_writes_cell cl (arr_roi buffer) p) order = 1%nat ->
  arr_data (executor_run cl order buffer).1 p = arr_data prediction p.
Proof.
  intros Htile Hpredict Hin.
  assert (Hwrites : tile_writes_cell cl (arr_roi buffer) p tile = true)
    by (unfold tile_writes_cell; by rewrite Hpredict).
  induction order as [|last order IH] using rev_ind; [by apply elem_of_nil in Htile |].
  rewrite executor_run_snoc, count_app. simpl. intros Hcount.
  apply elem_of_app in Htile as [Htile | Htile].
  - pose proof (count_elem_pos _ _ _ Htile Hwrites) as Hpos.
    unfold predict_tile. unfold tile_writes_cell in Hcount at 2.
    destruct (cl_predict cl last) as [prediction'|e]; simpl in *.
    + rewrite executor_run_roi.
      destruct (in_roi (intersect (arr_roi prediction') _) p); [lia |].
      apply IH; [done | lia].
    + apply IH; [done | lia].
  - apply list_elem_of_singleton in Htile as <-.
    unfold predict_tile. rewrite Hpredict. simpl.
    by rewrite executor_run_roi, Hin.
Qed.

(** The futures of a run record, task by task, whether the prediction
    raised. *)
Lemma executor_run_futures cl order buffer :
  (executor_run cl order buffer).2
  = map (fun tile => mkFuture (dss_roi tile)
                       (match cl_predict cl tile with
                        | Return _ => None
                        | Raise e => Some e
                        end)) order.
Proof.
  induction order as [|tile order IH] using rev_ind; [done |].
  rewrite executor_run_snoc, map_app. simpl. rewrite IH.
  unfold predict_tile. by destruct (cl_predict cl tile).
Qed.

(** With both handles in the registry, [do_predictions] is the run of the
    pool on the grid of the resolved region. *)
Lemma do_predictions_run picks roi classifier_id datasource_id cl ds
      (objects : gmap string pyobject) :
  objects !! classifier_id = Some (ObjClassifier cl) ->
  objects !! datasource_id = Some (ObjDataSource ds) ->
  do_predictions picks roi classifier_id datasource_id objects
  = (Return (executor_run cl (schedule picks (get_tiles (defined ds roi)))
               (allocate_predictions cl (resolve roi (ds_shape ds)))).1,
     objects).
Proof.
  intros Hcl Hds. unfold do_predictions, bind, lift, ret, Context.load.
  by rewrite Hcl, Hds.
Qed.


(** In a grid that does not split the channel axis, a classifier that
    emits [n] channels and does not fail stores into every cell of the
    buffer from exactly one tile. *)
Lemma expected_tiles_partition cl ds roi n p :
  let region := resolve roi (ds_shape ds) in
  let tile_shape := ds_tile_shape ds in
  0 < t_ tile_shape -> 0 < x_ tile_shape -> 0 < y_ tile_shape -> 0 < z_ tile_shape ->
  start (c_ region) < stop (c_ region) <= start (c_ region) + c_ tile_shape ->
  emits_channels cl n ->
  (forall tile, tile ∈ get_tiles (defined ds roi) -> is_raise (cl_predict cl tile) = false) ->
  in_roi (with_channels region n) p = true ->
  count (tile_writes_cell cl (with_channels region n) p) (get_tiles (defined ds roi))
  = 1%nat.
Proof.
  intros region tile_shape Ht Hx Hy Hz Hc [Hexpected Hshape] Hok Hp.
  unfold get_tiles. simpl. fold region tile_shape.
  rewrite count_map.
  rewrite (count_ext _ (fun tile => contains (t_ tile) (t_ p) && true
                                    && contains (x_ tile) (x_ p)
                                    && contains (y_ tile) (y_ p)
                                    && contains (z_ tile) (z_ p))).
  - etransitivity;
      [exact (count_tile_grid (fun i => contains i (t_ p)) (fun _ => true)
                (fun i => contains i (x_ p)) (fun i => contains i (y_ p))
                (fun i => contains i (z_ p)) region tile_shape) |].
    rewrite !count_split_axis by done.
    rewrite split_axis_single by lia. simpl.
    unfold in_roi in Hp. simpl in Hp. rewrite !andb_true_iff in Hp.
    destruct Hp as [[[[-> _] ->] ->] ->]. done.
  - intros tile Htile. unfold tile_writes_cell.
    specialize (Hok (mkDataSourceSlice ds tile)).
    specialize (Hshape (mkDataSourceSlice ds tile)).
    destruct (cl_predict cl (mkDataSourceSlice ds tile)) as [prediction|e].
    + rewrite (Hshape prediction eq_refl), Hexpected. simpl.
      rewrite in_roi_intersect, Hp, andb_true_r.
      unfold in_roi in *. simpl in *. rewrite !andb_true_iff in Hp.
      destruct Hp as [[[[_ ->] _] _] _]. done.
    + discriminate Hok. unfold get_tiles. simpl.
      apply list_elem_of_fmap. by exists tile.
Qed.

(** C2. When no tile task fails, the buffer that [do_predictions] returns
    has been stored into by every scheduled task: every future is done and
    holds no exception, every tile's prediction lies in the expected region
    and is in the buffer, and every cell of the expected region has been
    written exactly once, by a tile of the grid. The tiles are those of the
    native grid, which keeps the channel axis whole, and the classifier
    emits its channels over each tile. *)
Theorem do_predictions_writes_each_cell_once picks roi classifier_id datasource_id
        cl ds n (objects : gmap string pyobject) :
  let region := resolve roi (ds_shape ds) in
  let tile_shape := ds_tile_shape ds in
  objects !! classifier_id = Some (ObjClassifier cl) ->
  objects !! datasource_id = Some (ObjDataSource ds) ->
  0 < t_ tile_shape -> 0 < x_ tile_shape -> 0 < y_ tile_shape -> 0 < z_ tile_shape ->
  start (c_ region) < stop (c_ region) <= start (c_ region) + c_ tile_shape ->
  emits_channels cl n ->
  (forall tile, tile ∈ get_tiles (defined ds roi) -> is_raise (cl_predict cl tile) = false) ->
  exists buffer,
    do_predictions picks roi classifier_id datasource_id objects
    = (Return buffer, objects)
    /\ arr_roi buffer = with_channels region n
    /\ length (do_predictions_futures picks roi cl ds)
       = length (get_tiles (defined ds roi))
    /\ (forall future, future ∈ do_predictions_futures picks roi cl ds ->
                       fut_exception future = None)
    /\ (forall tile prediction p,
          tile ∈ get_tiles (defined ds roi) ->
          cl_predict cl tile = Return prediction ->
          in_roi (arr_roi prediction) p = true ->
          in_roi (with_channels region n) p = true
          /\ arr_data buffer p = arr_data prediction p)
    /\ (forall p, in_roi (with_channels region n) p = true ->
          arr_writes buffer p = 1%nat
          /\ exists tile prediction,
               tile ∈ get_tiles (defined ds roi)
               /\ cl_predict cl tile = Return prediction
               /\ in_roi (arr_roi prediction) p = true).
Proof.
  intros region tile_shape Hcl Hds Ht Hx Hy Hz Hc Hemits Hok.
  subst region tile_shape.
  pose proof (schedule_Permutation picks (get_tiles (defined ds roi))) as Hperm.
  assert (Hroi : arr_roi (allocate_predictions cl (resolve roi (ds_shape ds)))
                 = with_channels (resolve roi (ds_shape ds)) n)
    by (simpl; apply Hemits).
  assert (Hone : forall p,
             in_roi (with_channels (resolve roi (ds_shape ds)) n) p = true ->
             count (tile_writes_cell cl
                      (arr_roi (allocate_predictions cl (resolve roi (ds_shape ds)))) p)
                   (schedule picks (get_tiles (defined ds roi))) = 1%nat).
  { intros p Hp. rewrite <- (count_Permutation _ _ _ Hperm), Hroi.
    by apply expected_tiles_partition. }
  eexists. split; [by apply do_predictions_run |].
  rewrite executor_run_roi.
  split; [done |]. split; [| split; [| split]].
  - unfold do_predictions_futures. rewrite executor_run_futures, length_map.
    symmetry. by apply Permutation_length.
  - intros future. unfold do_predictions_futures.
    rewrite executor_run_futures, list_elem_of_fmap.
    intros (tile & -> & Htile). rewrite <- Hperm in Htile.
    specialize (Hok tile Htile). simpl. by destruct (cl_predict cl tile).
  - intros tile prediction p Htile Hpredict Hin.
    assert (Hp : in_roi (with_channels (resolve roi (ds_shape ds)) n) p = true).
    { destruct Hemits as [Hexpected Hshape].
      rewrite (Hshape _ _ Hpredict), Hexpected in Hin.
      unfold get_tiles in Htile. apply list_elem_of_fmap in Htile as (r & -> & Hr).
      assert (Hcpos : 0 < c_ (ds_tile_shape ds)) by lia.
      destruct (tile_grid_within _ _ _ Ht Hcpos Hx Hy Hz Hr)
        as (Hwt & _ & Hwx & Hwy & Hwz).
      unfold in_roi in *. simpl in *. rewrite !andb_true_iff in *.
      destruct Hin as [[[[Hit Hic] Hix] Hiy] Hiz].
      eauto 10 using contains_within. }
    split; [done |].
    apply (executor_run_written cl _ _ p tile prediction);
      [by rewrite <- Hperm | done | | by apply Hone].
    by rewrite in_roi_intersect, Hin, Hroi, Hp.
  - intros p Hp. split.
    + by rewrite executor_run_writes, (Hone p Hp).
    + destruct (count_pos_elem _ _ (eq_ind_r (fun k => (0 < k)%nat) Nat.lt_0_1 (Hone p Hp)))
        as (tile & Htile & Hwrites).
      unfold tile_writes_cell in Hwrites.
      destruct (cl_predict cl tile) as [prediction|e] eqn:Hpredict; [| discriminate].
      rewrite in_roi_intersect, andb_true_iff in Hwrites.
      rewrite <- Hperm in Htile. exists tile, prediction. tauto.
Qed.

End Pipeline_properties.

(* ===================================================================== *)
(** * Properties of the wire adapters                                     *)
(* ===================================================================== *)









Lemma append_assoc (a b c : string) : (a ++ b) ++ c = a ++ (b ++ c).
Proof.
  induction a as [|ch a IH]; [reflexivity |].
  change (String ch ((a ++ b) ++ c) = String ch (a ++ (b ++ c))). by rewrite IH.
Qed.

(** Evaluates [json.dumps] on the string constants of the goal. *)
Ltac dumps_constants :=
  repeat match goal with
         | |- context [json_string ?k] =>
             let v := eval vm_compute in (json_string k) in
             change (json_string k) with v
         end.

Section Wire_adapter_properties.
Context `{Deployment} `{!Unicode}.
Implicit Types (cl : Classifier) (ds : DataSource).
Implicit Types (objects : gmap string pyobject).


(** The text that [flask.jsonify] writes for the dictionary of
    [info_dict]. *)
Lemma info_document_text (shape tile : Shape5D) :
  let quoted := fun key : string => dquote ++ key ++ dquote in
  dumps (sort_keys (info_document shape tile)) ++ newline
  = "{" ++ quoted "@type" ++ ":" ++ quoted "neuroglancer_multiscale_volume"
    ++ "," ++ quoted "data_type" ++ ":" ++ quoted "uint8"
    ++ "," ++ quoted "num_channels" ++ ":" ++ pretty (c_ shape)
    ++ "," ++ quoted "scales" ++ ":[{"
    ++ quoted "chunk_sizes" ++ ":[["
    ++ pretty (x_ tile) ++ "," ++ pretty (y_ tile) ++ "," ++ pretty (z_ tile) ++ "]]"
    ++ "," ++ quoted "encoding" ++ ":" ++ quoted "raw"
    ++ "," ++ quoted "key" ++ ":" ++ quoted "data"
    ++ "," ++ quoted "resolution" ++ ":[1,1,1]"
    ++ "," ++ quoted "size" ++ ":["
    ++ pretty (x_ shape) ++ "," ++ pretty (y_ shape) ++ "," ++ pretty (z_ shape) ++ "]"
    ++ "," ++ quoted "voxel_offset" ++ ":[0,0,0]"
    ++ "}]," ++ quoted "type" ++ ":" ++ quoted "image" ++ "}" ++ newline.
Proof.
  intros quoted. subst quoted. cbv beta.
  destruct shape as [st sc sx sy sz], tile as [tt tc tx ty tz].
  unfold info_document, to_tuple_xyz. cbn [t_ c_ x_ y_ z_ map].
  match goal with
  | |- context [sort_keys ?j] =>
      let j' := eval vm_compute in (sort_keys j) in change (sort_keys j) with j'
  end.
  cbn -[pretty String.append json_string].
  dumps_constants.
  change (pretty 1) with "1". change (pretty 0) with "0".
  generalize (pretty sc) (pretty sx) (pretty sy) (pretty sz)
             (pretty tx) (pretty ty) (pretty tz).
  intros. unfold dquote, newline.
  rewrite !append_assoc. reflexivity.
Qed.

(** C8. For a classifier and a data source in the registry, the info
    route answers 200 with the JSON text of the fixed schema, keys sorted
    as [flask.jsonify] writes them, and leaves the registry unchanged. The
    bytes depend on nothing but the expected shape of the predictions and
    the tile shape of the data source: a second call right after the
    first returns the same bytes, and so does a call for any handles, in
    any registry, that resolve to objects with these two shapes. *)
Theorem info_dict_idempotent classifier_id datasource_id cl ds objects :
  objects !! classifier_id = Some (ObjClassifier cl) ->
  objects !! datasource_id = Some (ObjDataSource ds) ->
  let shape := shape_of (cl_get_expected_roi cl (full (ds_shape ds))) in
  let tile := ds_tile_shape ds in
  let quoted := fun key : string => dquote ++ key ++ dquote in
  let text :=
    "{" ++ quoted "@type" ++ ":" ++ quoted "neuroglancer_multiscale_volume"
    ++ "," ++ quoted "data_type" ++ ":" ++ quoted "uint8"
    ++ "," ++ quoted "num_channels" ++ ":" ++ pretty (c_ shape)
    ++ "," ++ quoted "scales" ++ ":[{"
    ++ quoted "chunk_sizes" ++ ":[["
    ++ pretty (x_ tile) ++ "," ++ pretty (y_ tile) ++ "," ++ pretty (z_ tile) ++ "]]"
    ++ "," ++ quoted "encoding" ++ ":" ++ quoted "raw"
    ++ "," ++ quoted "key" ++ ":" ++ quoted "data"
    ++ "," ++ quoted "resolution" ++ ":[1,1,1]"
    ++ "," ++ quoted "size" ++ ":["
    ++ pretty (x_ shape) ++ "," ++ pretty (y_ shape) ++ "," ++ pretty (z_ shape) ++ "]"
    ++ "," ++ quoted "voxel_offset" ++ ":[0,0,0]"
    ++ "}]," ++ quoted "type" ++ ":" ++ quoted "image" ++ "}" ++ newline in
  let response := mkResponse 200 "application/json" (list_byte_of_string text) in
  info_dict classifier_id datasource_id objects = (Return response, objects)
  /\ (let* first := info_dict classifier_id datasource_id in
      let* second := info_dict classifier_id datasource_id in
      ret (first, second)) objects
     = (Return (response, response), objects)
  /\ (forall classifier_id' datasource_id' cl' ds' objects',
        objects' !! classifier_id' = Some (ObjClassifier cl') ->
        objects' !! datasource_id' = Some (ObjDataSource ds') ->
        shape_of (cl_get_expected_roi cl' (full (ds_shape ds'))) = shape ->
        ds_tile_shape ds' = tile ->
        info_dict classifier_id' datasource_id' objects' = (Return response, objects')).
Proof.
  intros Hcl Hds shape tile quoted text response.
  assert (Hcall : forall classifier_id' datasource_id' cl' ds' objects',
             objects' !! classifier_id' = Some (ObjClassifier cl') ->
             objects' !! datasource_id' = Some (ObjDataSource ds') ->
             shape_of (cl_get_expected_roi cl' (full (ds_shape ds'))) = shape ->
             ds_tile_shape ds' = tile ->
             info_dict classifier_id' datasource_id' objects' = (Return response, objects')).
  { intros classifier_id' datasource_id' cl' ds' objects' Hcl' Hds' Hshape Htile.
    unfold info_dict, bind, lift, ret, Context.load. rewrite Hcl', Hds'. simpl.
    rewrite Hshape, Htile. unfold jsonify. by rewrite info_document_text. }
  pose proof (Hcall _ _ _ _ _ Hcl Hds eq_refl eq_refl) as Hfirst.
  split; [exact Hfirst |]. split; [| exact Hcall].
  unfold bind at 1. rewrite Hfirst. unfold bind. by rewrite Hfirst.
Qed.

(** C10. A [GET /predict/] request without a [channel] argument is
    rendered from channel 0. Whenever such a request is answered, the
    answer is the PNG of the image whose pixel (x, y) is the 8-bit value
    of the cell (x, y) of channel 0 of the buffer that [do_predictions]
    returned. It is answered, with status 200, when the two handles
    resolve, the classifier emits at least one channel and the requested
    region has one time point and one plane in z. *)
Theorem predict_defaults_to_channel_0 picks req objects :
  args_get "channel" (args req) = None ->
  (forall response objects',
      predict picks req objects = (Return response, objects') ->
      exists predictions,
        requested_predictions picks req objects = (Return predictions, objects')
        /\ let r := arr_roi predictions in
           response
           = mkResponse 200 "image/png"
               (png_save
                  (map (fun y =>
                     map (fun x => to_uint8 true
                                     (arr_data predictions
                                        (mkAxes (start (t_ r)) 0 x y (start (z_ r)))))
                         (range (x_ r)))
                     (range (y_ r)))))
  /\ (forall roi_params roi classifier_id datasource_id cl ds n,
        roi_params_of (args req) [] = Return roi_params ->
        Slice5D_of roi_params Slice5D_all = Return roi ->
        args_get "pixel_classifier_id" (args req) = Some classifier_id ->
        args_get "data_source_id" (args req) = Some datasource_id ->
        objects !! classifier_id = Some (ObjClassifier cl) ->
        objects !! datasource_id = Some (ObjDataSource ds) ->
        (forall r, cl_get_expected_roi cl r = with_channels r n) ->
        1 <= n ->
        let region := resolve roi (ds_shape ds) in
        extent (t_ region) = 1 ->
        extent (z_ region) = 1 ->
        exists predictions,
          do_predictions picks roi classifier_id datasource_id objects
          = (Return predictions, objects)
          /\ predict picks req objects
             = (Return
                  (mkResponse 200 "image/png"
                     (png_save
                        (map (fun y =>
                           map (fun x => to_uint8 true
                                           (arr_data predictions
                                              (mkAxes (start (t_ region)) 0 x y
                                                      (start (z_ region)))))
                               (range (x_ region)))
                           (range (y_ region))))),
                objects)).
Proof.
  intros Habsent. split.
  - intros response objects'. unfold predict, bind at 1.
    destruct (requested_predictions picks req objects) as [[predictions|e] objects0];
      [| discriminate].
    unfold bind, lift, channel_of. rewrite Habsent.
    unfold render_channel, raw_yx, cut, as_uint8, amap, Slice5D_channel.
    cbn [arr_roi arr_data t_ c_ x_ y_ z_ cut_axis].
    destruct (_ && _) eqn:Hsingle; [| discriminate].
    cbn [rbind]. intros [= <- <-]. exists predictions. split; [done |].
    rewrite !andb_true_iff in Hsingle. destruct Hsingle as [[_ Hc] _].
    apply Z.eqb_eq in Hc. unfold extent, intersect_axis in Hc. cbn [start stop] in Hc.
    unfold intersect_axis. cbn [start].
    replace (Z.max 0 (start (c_ (arr_roi predictions)))) with 0 by lia.
    reflexivity.
  - intros roi_params roi classifier_id datasource_id cl ds n
           Hparams Hslice Hcid Hdid Hcl Hds Hexpected Hn region Ht Hz.
    pose proof (do_predictions_run picks roi _ _ _ _ _ Hcl Hds) as Hrun.
    set (buffer := (executor_run cl _ _).1) in Hrun.
    assert (Hroi : arr_roi buffer = with_channels region n).
    { subst buffer. rewrite executor_run_roi.
      unfold allocate_predictions, allocate. cbn [arr_roi]. by rewrite Hexpected. }
    exists buffer. split; [exact Hrun |].
    unfold predict, requested_predictions, channel_of, args_item, bind, lift.
    rewrite Hparams, Hslice, Hcid, Hdid, Hrun, Habsent.
    unfold render_channel, raw_yx, cut, as_uint8, amap, Slice5D_channel.
    cbn [arr_roi arr_data t_ c_ x_ y_ z_ cut_axis].
    rewrite Hroi. unfold with_channels. cbn [t_ c_ x_ y_ z_].
    unfold intersect_axis. cbn [start stop].
    replace (Z.max 0 0) with 0 by reflexivity.
    replace (Z.max 0 (Z.min (0 + 1) n)) with 1 by lia.
    rewrite Ht, Hz. reflexivity.
Qed.

End Wire_adapter_properties.

(* ===================================================================== *)
(** * The properties at the concrete deployment                           *)
(* ===================================================================== *)

#[local] Existing Instance Examples.numeric.
#[local] Existing Instance Examples.unicode.
#[local] Existing Instance Examples.deployment.

(** The registry of the examples holds what its handles promise. *)
Lemma example_classifier :
  Examples.objects !! "pointer@classifier" = Some (ObjClassifier Examples.classifier).
Proof. reflexivity. Defined.

Lemma example_image :
  Examples.objects !! "pointer@image" = Some (ObjDataSource (Examples.image 4 2)).
Proof. reflexivity. Defined.

Lemma example_emits_two_channels : emits_channels Examples.classifier 2.
Proof.
  split; [reflexivity |].
  intros tile prediction. unfold Examples.classifier, Examples.two_channels. simpl.
  destruct (ds_retrieve _ _); simpl; [| discriminate].
  by intros [= <-].
Defined.

Lemma example_tiles_succeed (roi : Slice5D) (tile : DataSourceSlice) :
  tile ∈ get_tiles (defined (Examples.image 4 2) roi) ->
  is_raise (cl_predict Examples.classifier tile) = false.
Proof.
  unfold get_tiles. rewrite list_elem_of_fmap. by intros (r & -> & _).
Defined.



Lemma do_predictions_writes_each_cell_once_witness :
  exists buffer,
    do_predictions [3%nat; 1%nat] Slice5D_all "pointer@classifier" "pointer@image"
                   Examples.objects
    = (Return buffer, Examples.objects)
    /\ arr_writes buffer (mkAxes 0 1 3 1 0) = 1%nat.
Proof.
  destruct (do_predictions_writes_each_cell_once [3%nat; 1%nat] Slice5D_all
              "pointer@classifier" "pointer@image" Examples.classifier
              (Examples.image 4 2) 2 Examples.objects example_classifier example_image)
    as (buffer & Hrun & _ & _ & _ & _ & Hcells).
  - simpl; lia.
  - simpl; lia.
  - simpl; lia.
  - simpl; lia.
  - simpl; lia.
  - exact example_emits_two_channels.
  - exact (example_tiles_succeed Slice5D_all).
  - exists buffer. split; [exact Hrun |].
    exact (proj1 (Hcells (mkAxes 0 1 3 1 0) eq_refl)).
Defined.

(** C2: a data source of two channels whose tiles hold one channel each,
    under a classifier that emits two channels for every tile. No tile
    fails, and the two tiles over the same pixels both write the cell
    (x=0, y=0) of channel 0. *)
Lemma channel_tiles_write_twice :
  let tiles := get_tiles (defined Channel_examples.two_channel_image Slice5D_all) in
  let outcome :=
    do_predictions [] Slice5D_all "pointer@classifier" "pointer@two_channels"
                   Channel_examples.objects in
  length tiles = 8%nat
  /\ existsb (fun tile => is_raise (cl_predict Examples.classifier tile)) tiles = false
  /\ exists buffer,
       outcome = (Return buffer, Channel_examples.objects)
       /\ in_roi (arr_roi buffer) (mkAxes 0 0 0 0 0) = true
       /\ arr_writes buffer (mkAxes 0 0 0 0 0) = 2%nat.
Proof.
  split; [reflexivity |]. split; [reflexivity |].
  eexists. split; [reflexivity |]. split; reflexivity.
Qed.

(** C3: ["datasource"] is not in the allow-list, verbatim or as
    ["Datasource"]; the create route answers with status 500, which is not
    a client error. *)
Lemma create_unknown_class_is_server_error :
  let outcome :=
    create_object "4f1c" (mkRequest [] [("name", "sample")] []) "datasource"
                  Examples.objects in
  workflow_classes !! "datasource" = None
  /\ workflow_classes !! remove_char "_" (title "datasource") = None
  /\ outcome.1 = Raise (AttributeError "from_json_data")
  /\ status (flask_response outcome.1) = 500
  /\ ~ (400 <= status (flask_response outcome.1) < 500).
Proof.
  repeat split; try reflexivity. vm_compute. intros [_ Hlt]. discriminate Hlt.
Qed.

Lemma create_unknown_class_fails_witness :
  workflow_classes !! "datasource" = None
  /\ workflow_classes !! remove_char "_" (title "datasource") = None
  /\ status (flask_response
               (create_object "4f1c" (mkRequest [] [("name", "sample")] []) "datasource"
                              Examples.objects).1) = 500.
Proof.
  split; [reflexivity |]. split; [reflexivity |].
  exact (proj1 (proj2 (create_unknown_class_fails
                         "4f1c" (mkRequest [] [("name", "sample")] []) "datasource"
                         Examples.objects eq_refl eq_refl))).
Defined.

Lemma remove_wrong_type_keeps_entry_witness :
  Examples.objects !! "pointer@smoothing"
  = Some (ObjOpaque GaussianSmoothing_class "sigma=0.3")
  /\ issubclass GaussianSmoothing_class DataSource_class = false
  /\ exists msg,
       Context.remove (Some DataSource_class) "pointer@smoothing" Examples.objects
       = (Raise (PyException msg), Examples.objects)
       /\ Context.load "pointer@smoothing"
            (Context.remove (Some DataSource_class) "pointer@smoothing"
                            Examples.objects).2
          = (Return (ObjOpaque GaussianSmoothing_class "sigma=0.3"), Examples.objects).
Proof.
  split; [reflexivity |]. split; [reflexivity |].
  exact (remove_wrong_type_keeps_entry DataSource_class "pointer@smoothing"
           (ObjOpaque GaussianSmoothing_class "sigma=0.3") Examples.objects
           eq_refl eq_refl).
Defined.

(** The scenario [DELETE /datasource/pointer@abc]. *)
Lemma remove_unknown_handle_witness :
  Examples.objects !! "pointer@abc" = None
  /\ Context.remove (Some DataSource_class) "pointer@abc" Examples.objects
     = (Raise (KeyError "pointer@abc"), Examples.objects)
  /\ status (flask_response
               (remove_object "datasource" "pointer@abc" Examples.objects).1) = 500.
Proof.
  split; [reflexivity |].
  destruct (remove_unknown_handle (Some DataSource_class) "datasource" "pointer@abc"
              Examples.objects eq_refl) as (Hremove & _ & _ & Hresponse & _ & _).
  split; [exact Hremove | by rewrite Hresponse].
Defined.

(** C6: [DELETE /datasource/pointer@abc] on a machine without the debugger
    package. The class name does not resolve, the import of the hook
    fails and [remove] is not reached; the answer is the status 500 page
    of any other failure, not a response that says the handle was not
    found. *)
Lemma delete_unknown_handle_is_server_error :
  let outcome :=
    remove_object (H0 := Examples.deployment_without_pydevd)
                  "datasource" "pointer@abc" Examples.objects in
  Examples.objects !! "pointer@abc" = None
  /\ outcome.1 = Raise (ModuleNotFoundError "pydevd")
  /\ outcome.1 <> Raise (KeyError "pointer@abc")
  /\ status (flask_response outcome.1) = 500
  /\ status (flask_response outcome.1) <> 404
  /\ flask_response outcome.1
     = flask_response (Raise (PyException "some other failure")).
Proof. repeat split; try reflexivity; discriminate. Qed.

(** With a debugger attached, the same request reaches [remove]; its
    [KeyError] is answered with the same page. *)
Example delete_unknown_handle_with_debugger :
  let outcome := remove_object "datasource" "pointer@abc" Examples.objects in
  outcome.1 = Raise (KeyError "pointer@abc")
  /\ flask_response outcome.1
     = flask_response (Raise (PyException "some other failure")).
Proof. split; reflexivity. Qed.

(** The request [0-10_0-10_0-1] against an image of 5 by 5 pixels and the
    two-channel classifier: the effective region is the image, and the
    answer has 50 bytes, not [10*10*1*2 = 200]. *)
Lemma chunk_of_oversized_request_is_shorter :
  exists chunk,
    (ng_predict [] "pointer@classifier" "pointer@small" 0 10 0 10 0 1 Examples.objects).1
    = Return (mkResponse 200 "application/octet-stream" chunk)
    /\ Z.of_nat (length chunk) = 50
    /\ Z.of_nat (length chunk) <> (10 - 0) * (10 - 0) * (1 - 0) * 2.
Proof.
  eexists. split; [vm_compute; reflexivity |]. split; [reflexivity |]. discriminate.
Qed.



(** The info document of the 4 by 4 image under the two-channel
    classifier: 221 bytes, twice. *)
Lemma info_dict_idempotent_witness :
  exists response,
    (let* first := info_dict "pointer@classifier" "pointer@image" in
     let* second := info_dict "pointer@classifier" "pointer@image" in
     ret (first, second)) Examples.objects
    = (Return (response, response), Examples.objects)
    /\ status response = 200
    /\ length (body response) = 221%nat
    /\ info_dict "pointer@classifier" "pointer@image"
                 (<["pointer@other" := ObjDataSource (Examples.image 10 4)]> Examples.objects)
       = (Return response,
          <["pointer@other" := ObjDataSource (Examples.image 10 4)]> Examples.objects).
Proof.
  destruct (info_dict_idempotent "pointer@classifier" "pointer@image"
              Examples.classifier (Examples.image 4 2) Examples.objects eq_refl eq_refl)
    as (_ & Htwice & Hany).
  eexists. split; [exact Htwice |]. split; [reflexivity |]. split; [reflexivity |].
  exact (Hany "pointer@classifier" "pointer@image" Examples.classifier (Examples.image 4 2)
              (<["pointer@other" := ObjDataSource (Examples.image 10 4)]> Examples.objects)
              eq_refl eq_refl eq_refl eq_refl).
Defined.

(** [GET /predict/?x=0_4&y=0_4] on the 4 by 4 image without a [channel]
    argument: the rows of channel 0 (the encoder of the examples
    concatenates the rows). *)
Lemma predict_defaults_to_channel_0_witness :
  let req :=
    mkRequest [("x", "0_4"); ("y", "0_4"); ("pixel_classifier_id", "pointer@classifier");
               ("data_source_id", "pointer@image")] [] [] in
  args_get "channel" (args req) = None
  /\ predict [] req Examples.objects
     = (Return (mkResponse 200 "image/png"
                  (map (fun v => byte_of_ascii (ascii_of_N v))
                       [0; 1; 2; 3; 10; 11; 12; 13; 20; 21; 22; 23; 30; 31; 32; 33]%N)),
        Examples.objects).
Proof.
  split; [reflexivity |].
  destruct (proj2 (predict_defaults_to_channel_0 []
              (mkRequest [("x", "0_4"); ("y", "0_4");
                          ("pixel_classifier_id", "pointer@classifier");
                          ("data_source_id", "pointer@image")] [] [])
              Examples.objects eq_refl)
              [("x", slice 0 4); ("y", slice 0 4)]
              (mkAxes None None (Some (slice 0 4)) (Some (slice 0 4)) None)
              "pointer@classifier" "pointer@image"
              Examples.classifier (Examples.image 4 2) 2
              eq_refl eq_refl eq_refl eq_refl eq_refl eq_refl
              (fun r => eq_refl) ltac:(lia) eq_refl eq_refl)
    as (predictions & Hrun & Hpredict).
  rewrite Hpredict. vm_compute in Hrun. injection Hrun as <-. reflexivity.
Defined.

(** On a machine without the debugger package the unknown class name fails
    in [get_class_named] itself; the answer is the same status 500. *)
Example create_unknown_class_without_pydevd :
  let outcome :=
    create_object (H0 := Examples.deployment_without_pydevd)
                  "4f1c" (mkRequest [] [] []) "datasource" Examples.objects in
  outcome.1 = Raise (ModuleNotFoundError "pydevd")
  /\ status (flask_response outcome.1) = 500.
Proof. split; reflexivity. Qed.

(** With the package installed and no debugger listening, the hook raises
    [ConnectionRefusedError]; the answer is the same status 500. *)
Example create_unknown_class_without_debugger :
  let outcome :=
    create_object (H0 := Examples.deployment_without_debugger)
                  "4f1c" (mkRequest [] [] []) "datasource" Examples.objects in
  outcome.1 = Raise (ConnectionRefusedError "Connection refused")
  /\ outcome.2 = Examples.objects
  /\ status (flask_response outcome.1) = 500.
Proof. repeat split; reflexivity. Qed.

(** ["data_source"] and ["gaussian_smoothing"] resolve; ["datasource"] does
    not, because [title()] lower-cases the inner capital. *)
Example class_names_resolved :
  normalized_name "data_source" = "DataSource"
  /\ normalized_name "gaussian_smoothing" = "GaussianSmoothing"
  /\ normalized_name "datasource" = "Datasource"
  /\ get_class_named "data_source" = Return (Some DataSource_class)
  /\ get_class_named "datasource" = Return None.
Proof. repeat split; reflexivity. Qed.

(** The bytes of the chunk [0-2_0-2_0-1] of the 4 by 4 image: x runs first,
    then y, then the channel. *)
Example chunk_in_fortran_order :
  (ng_predict [] "pointer@classifier" "pointer@image" 0 2 0 2 0 1 Examples.objects).1
  = Return (mkResponse 200 "application/octet-stream"
              (map (fun v => byte_of_ascii (ascii_of_N v))
                   [0; 1; 10; 11; 100; 101; 110; 111]%N)).
Proof. vm_compute. reflexivity. Qed.

(** The grid of the 100 by 100 image in tiles of 32 by 32: sixteen tiles,
    the last of which is 4 by 4. *)
Example tile_grid_100_by_32 :
  let tiles := tile_grid (full (mkAxes 1 1 100 100 1)) (mkAxes 1 1 32 32 1) in
  length tiles = 16%nat
  /\ last tiles
     = Some (mkAxes (slice 0 1) (slice 0 1) (slice 96 100) (slice 96 100) (slice 0 1)).
Proof. split; reflexivity. Qed.

(* ===================================================================== *)
(** * Further properties of the registry                                  *)
(* ===================================================================== *)

Lemma issubclass_refl (klass : pyclass) : issubclass klass klass = true.
Proof. unfold issubclass. by rewrite String.eqb_refl. Qed.

Lemma prefix_app (s t : string) : String.prefix s (s ++ t) = true.
Proof.
  induction s as [|ch s IH]; simpl; [by destruct t |].
  destruct (ascii_dec ch ch); [exact IH | done].
Qed.

Section More_registry_properties.
Context `{Numeric}.
Implicit Types (objects : gmap string pyobject) (obj X : pyobject).
Implicit Types (key uuid : string) (klass : pyclass).

(** X1. Removing an entry under a class that its object is an instance of
    returns the object and deletes the entry: the handle no longer loads,
    and every other handle loads what it loaded before. *)
Theorem remove_returns_and_deletes klass key obj objects :
  objects !! key = Some obj ->
  issubclass (type_of obj) klass = true ->
  exists objects',
    Context.remove (Some klass) key objects = (Return obj, objects')
    /\ Context.load key objects' = (Raise (KeyError key), objects')
    /\ forall key', key' <> key ->
         (Context.load key' objects').1 = (Context.load key' objects).1.
Proof.
  intros Hkey Hsub. exists (delete key objects).
  unfold Context.remove. rewrite Hkey. simpl. rewrite Hsub. simpl.
  split; [done |]. split.
  - apply load_None, lookup_delete_eq.
  - intros key' Hne. unfold Context.load. rewrite lookup_delete_ne by done.
    by destruct (objects !! key').
Qed.

(** X2. Storing an object under a handle that is free and removing it
    again under the object's own class gives the object back and the
    registry it started from. *)
Theorem store_then_remove_restores uuid (obj_id : option string) X objects :
  objects !! ("pointer@" ++ default uuid obj_id) = None ->
  (let* handle := Context.store uuid obj_id X in
   Context.remove (Some (type_of X)) handle) objects
  = (Return X, objects).
Proof.
  intros Hfree. unfold bind. rewrite store_spec.
  unfold Context.remove. rewrite lookup_insert_eq. simpl.
  rewrite issubclass_refl. simpl. by rewrite delete_insert_id.
Qed.

(** X3. What [get_all(klass)] lists after [store(id, X)]: the listing from
    before, with the handle bound to [X] when [X] is an instance of [klass]
    and without the handle otherwise (overwriting a handle with an object
    of another class takes it out of the listing). *)
Theorem get_all_after_store uuid (obj_id : option string) X klass objects :
  let key := "pointer@" ++ default uuid obj_id in
  exists before,
    (Context.get_all klass objects).1 = Return before
    /\ (let* _ := Context.store uuid obj_id X in Context.get_all klass) objects
       = (Return (if isinstance X klass then <[key := X]> before else delete key before),
          <[key := X]> objects).
Proof.
  intros key. eexists. split; [reflexivity |].
  unfold bind. rewrite store_spec. fold key. unfold Context.get_all. f_equal. f_equal.
  destruct (isinstance X klass) eqn:Hinst.
  - by rewrite map_filter_insert_True.
  - rewrite map_filter_insert_False by (simpl; congruence).
    apply map_filter_delete.
Qed.

End More_registry_properties.

Lemma workflow_classes_lookup (classes : list pyclass) (acc : gmap string pyclass)
      (name : string) (klass : pyclass) :
  foldl (fun m k => <[cls_name k := k]> m) acc classes !! name = Some klass ->
  (klass ∈ classes /\ cls_name klass = name) \/ acc !! name = Some klass.
Proof.
  revert acc. induction classes as [|k classes IH]; intros acc; simpl; [by right |].
  intros Hlookup. destruct (IH _ Hlookup) as [[Hin Hname] | Hacc].
  - left. split; [by right | done].
  - apply lookup_insert_Some in Hacc as [[<- <-] | [_ Hacc]].
    + left. split; [by left | done].
    + by right.
Qed.

Section More_route_properties.
Context `{Deployment} `{!Unicode}.
Implicit Types (objects : gmap string pyobject).

(** X4. Whatever name the client sends, a class that [get_class_named]
    returns is one of the classes listed in [server.py], and it is the one
    whose [__name__] is the name itself or its [title()] without
    underscores. *)
Theorem get_class_named_in_allow_list name klass :
  get_class_named name = Return (Some klass) ->
  klass ∈ (datasource_classes ++ feature_extractor_classes ++ classifier_classes)%list
  /\ (cls_name klass = name \/ cls_name klass = remove_char "_" (title name)).
Proof.
  unfold get_class_named.
  destruct (workflow_classes !! normalized_name name) as [k|] eqn:Hlookup.
  - intros [= <-].
    destruct (workflow_classes_lookup _ _ _ _ Hlookup) as [[Hin Hname] | Hempty];
      [| by rewrite lookup_empty in Hempty].
    split; [done |]. rewrite Hname. unfold normalized_name.
    destruct (known_class name); auto.
  - by destruct pydevd_settrace.
Qed.

End More_route_properties.

Lemma get_class_named_in_allow_list_witness :
  get_class_named "gaussian_smoothing" = Return (Some GaussianSmoothing_class)
  /\ cls_name GaussianSmoothing_class = remove_char "_" (title "gaussian_smoothing").
Proof.
  split; [reflexivity |].
  destruct (get_class_named_in_allow_list "gaussian_smoothing" GaussianSmoothing_class
              eq_refl) as [_ [Hname | Hname]]; [discriminate Hname | exact Hname].
Defined.

Lemma remove_returns_and_deletes_witness :
  exists objects',
    Context.remove (Some FeatureExtractor_class) "pointer@smoothing" Examples.objects
    = (Return (ObjOpaque GaussianSmoothing_class "sigma=0.3"), objects')
    /\ Context.load "pointer@smoothing" objects'
       = (Raise (KeyError "pointer@smoothing"), objects').
Proof.
  destruct (remove_returns_and_deletes FeatureExtractor_class "pointer@smoothing"
              (ObjOpaque GaussianSmoothing_class "sigma=0.3") Examples.objects
              eq_refl eq_refl) as (objects' & Hremove & Hload & _).
  exists objects'. split; [exact Hremove | exact Hload].
Defined.

Lemma store_then_remove_restores_witness :
  Examples.objects !! "pointer@sample7" = None
  /\ (let* handle := Context.store "4f1c" (Some "sample7") (ObjDataSource (Examples.image 4 2)) in
      Context.remove (Some Examples.N5DataSource_class) handle) Examples.objects
     = (Return (ObjDataSource (Examples.image 4 2)), Examples.objects).
Proof.
  split; [reflexivity |].
  exact (store_then_remove_restores "4f1c" (Some "sample7")
           (ObjDataSource (Examples.image 4 2)) Examples.objects eq_refl).
Defined.

(* ===================================================================== *)
(** * Properties of the request payload and of object creation            *)
(* ===================================================================== *)

Section Payload_properties.
Context `{Deployment} `{!Unicode}.
Implicit Types (objects : gmap string pyobject) (payload : gmap string pvalue).

Lemma payload_of_form_resolved items payload objects :
  (forall k v, (k, v) ∈ items -> String.prefix "pointer@" v = true ->
               is_Some (objects !! v)) ->
  exists payload', payload_of_form items payload objects = (Return payload', objects).
Proof.
  revert payload. induction items as [|[k v] items IH]; intros payload Hres; simpl.
  - by eexists.
  - assert (Hrest : forall k' v', (k', v') ∈ items ->
                      String.prefix "pointer@" v' = true -> is_Some (objects !! v'))
      by (intros k' v' Hin; apply (Hres k' v'); by right).
    destruct (String.prefix "pointer@" v) eqn:Hprefix; [| by apply IH].
    destruct (Hres k v) as [obj Hobj]; [left | done |].
    unfold bind. rewrite (load_Some _ _ _ Hobj). by apply IH.
Qed.

Lemma payload_of_form_dangling items payload objects e :
  (payload_of_form items payload objects).1 = Raise e ->
  exists k v, (k, v) ∈ items /\ String.prefix "pointer@" v = true
              /\ objects !! v = None /\ e = KeyError v.
Proof.
  revert payload. induction items as [|[k v] items IH]; intros payload; simpl; [done |].
  destruct (String.prefix "pointer@" v) eqn:Hprefix.
  - unfold bind, Context.load. destruct (objects !! v) as [obj|] eqn:Hobj.
    + intros Hraise. destruct (IH _ Hraise) as (k' & v' & Hin & Hrest).
      exists k', v'. split; [by right | done].
    + simpl. intros [= <-]. exists k, v. split; [left | done].
  - intros Hraise. destruct (IH _ Hraise) as (k' & v' & Hin & Hrest).
    exists k', v'. split; [by right | done].
Qed.

(** X5. [get_request_payload] never changes the registry. It returns a
    payload exactly when every form value that starts with ["pointer@"]
    is a handle of the registry; otherwise it raises the [KeyError] of
    such a value that is not. *)
Theorem get_request_payload_resolves_pointers req objects :
  (get_request_payload req objects).2 = objects
  /\ ((exists payload, (get_request_payload req objects).1 = Return payload)
      <-> (forall k v, (k, v) ∈ form req -> String.prefix "pointer@" v = true ->
                       is_Some (objects !! v)))
  /\ (forall e, (get_request_payload req objects).1 = Raise e ->
        exists k v, (k, v) ∈ form req /\ String.prefix "pointer@" v = true
                    /\ objects !! v = None /\ e = KeyError v).
Proof.
  unfold get_request_payload, bind, ret.
  pose proof (payload_of_form_keeps_objects (form req) ∅ objects) as Hkeep.
  pose proof (payload_of_form_dangling (form req) ∅ objects) as Hdangling.
  split; [| split].
  - destruct (payload_of_form (form req) ∅ objects) as [[p|e] objects']; by simpl in *.
  - split.
    + intros [payload Hpayload] k v Hin Hprefix.
      destruct (payload_of_form (form req) ∅ objects) as [[p|e] objects'] eqn:Hform;
        simpl in *; [| discriminate Hpayload].
      destruct (objects !! v) as [obj|] eqn:Hobj; [by eexists |].
      exfalso. clear Hdangling Hpayload. revert Hform. generalize (∅ : gmap string pvalue).
      induction (form req) as [|[k' v'] items IH]; intros acc;
        [by apply elem_of_nil in Hin |].
      simpl. apply elem_of_cons in Hin as [[= <- <-] | Hin].
      * rewrite Hprefix. unfold bind. by rewrite (load_None _ _ Hobj).
      * destruct (String.prefix "pointer@" v'); [| by apply IH].
        unfold bind, Context.load. destruct (objects !! v'); [by apply IH | done].
    + intros Hres.
      destruct (payload_of_form_resolved (form req) ∅ objects Hres) as [p ->].
      by eexists.
  - intros e. specialize (Hdangling e).
    destruct (payload_of_form (form req) ∅ objects) as [[p|e'] objects'];
      simpl in *; [done | exact Hdangling].
Qed.

Lemma payload_of_files_lookup items payload k :
  (k ∈ map fst items ->
   exists b, (k, b) ∈ items /\ payload_of_files items payload !! k = Some (PBytes b))
  /\ (k ∉ map fst items -> payload_of_files items payload !! k = payload !! k).
Proof.
  unfold payload_of_files. revert payload.
  induction items as [|[k' b'] items IH] using rev_ind; intros payload.
  - split; [intros Hin; by apply elem_of_nil in Hin | done].
  - rewrite foldl_app, map_app. simpl. split.
    + intros Hin. destruct (decide (k' = k)) as [-> | Hne].
      * exists b'. rewrite lookup_insert_eq. split; [| done].
        apply elem_of_app. right. left.
      * rewrite lookup_insert_ne by done.
        apply elem_of_app in Hin as [Hin | Hin].
        -- destruct (proj1 (IH payload) Hin) as (b & Hb & Hlookup).
           exists b. split; [apply elem_of_app; by left | done].
        -- apply list_elem_of_singleton in Hin. simpl in Hin. congruence.
    + intros Hnotin. rewrite not_elem_of_app, list_elem_of_singleton in Hnotin.
      destruct Hnotin as [Hnotin Hne]. simpl in Hne.
      rewrite lookup_insert_ne by done. by apply IH.
Qed.

(** X6. In the payload an uploaded file takes the place of a form field of
    the same name: a key of [request.files] is bound to the bytes of one of
    its files, and every other key is bound as the form fields alone bind
    it. *)
Theorem get_request_payload_files_override req objects payload k :
  get_request_payload req objects = (Return payload, objects) ->
  exists from_form,
    payload_of_form (form req) ∅ objects = (Return from_form, objects)
    /\ (k ∈ map fst (files req) ->
        exists b, (k, b) ∈ files req /\ payload !! k = Some (PBytes b))
    /\ (k ∉ map fst (files req) -> payload !! k = from_form !! k).
Proof.
  unfold get_request_payload, bind, ret.
  pose proof (payload_of_form_keeps_objects (form req) ∅ objects) as Hkeep.
  destruct (payload_of_form (form req) ∅ objects) as [[p|e] objects'];
    simpl in *; [| discriminate].
  intros [= <- _]. subst objects'. exists p. split; [done |].
  apply payload_of_files_lookup.
Qed.

(** X7. A handle that [store] returned, sent back as a form value, is
    replaced in the payload by the stored object. *)
Theorem stored_handle_resolves_in_payload uuid (obj_id : option string) X field objects :
  (let* handle := Context.store uuid obj_id X in
   get_request_payload (mkRequest [] [(field, handle)] [])) objects
  = (Return {[field := PRef X]},
     <["pointer@" ++ default uuid obj_id := X]> objects).
Proof.
  unfold bind at 1. rewrite store_spec.
  unfold get_request_payload, bind, ret. simpl.
  rewrite prefix_app. unfold bind.
  by rewrite (load_Some _ X _ (lookup_insert_eq _ _ _)).
Qed.

Lemma create_spec uuid req klass objects payload :
  get_request_payload req objects = (Return payload, objects) ->
  create uuid req (Some klass) objects
  = match from_json_data klass payload with
    | Return obj =>
        match payload_id payload with
        | Return obj_id =>
            let key := "pointer@" ++ default uuid obj_id in
            (Return (obj, key), <[key := obj]> objects)
        | Raise e => (Raise e, objects)
        end
    | Raise e => (Raise e, objects)
    end.
Proof.
  intros Hpayload. unfold create, bind at 1. rewrite Hpayload.
  unfold bind, lift, ret. destruct (from_json_data klass payload) as [obj|e]; [| done].
  destruct (payload_id payload) as [obj_id|e]; [| done].
  by rewrite store_spec.
Qed.

(** X8. [Context.create] stores only what the constructor returned: when
    [from_json_data] returns an object and the payload's [id] can be read,
    the object is stored under ["pointer@" + id] (the [id] of the
    unflattened payload, or the fresh uuid) and returned with that
    handle; when either raises, the exception leaves [create] and the
    registry is as before. *)
Theorem create_all_or_nothing uuid req klass objects payload :
  get_request_payload req objects = (Return payload, objects) ->
  (exists e, create uuid req (Some klass) objects = (Raise e, objects)
             /\ (from_json_data klass payload = Raise e
                 \/ (is_raise (from_json_data klass payload) = false
                     /\ payload_id payload = Raise e)))
  \/ (exists obj obj_id,
        from_json_data klass payload = Return obj
        /\ payload_id payload = Return obj_id
        /\ let key := "pointer@" ++ default uuid obj_id in
           create uuid req (Some klass) objects = (Return (obj, key), <[key := obj]> objects)).
Proof.
  intros Hpayload. rewrite (create_spec _ _ _ _ _ Hpayload).
  destruct (from_json_data klass payload) as [obj|e]; [| left; eauto].
  destruct (payload_id payload) as [obj_id|e]; [| left; eauto].
  right. by exists obj, obj_id.
Qed.

(** X9. [POST /<class_name>/] for a class name that resolves, once the
    constructor has returned [obj] and the payload's [id] has been read:
    the object is registered under its handle in every case. The answer
    is [json.dumps] of the handle with status 200, unless [obj] is an
    annotation whose debugging display raises: then the exception leaves
    the view function, and the object stays registered all the same. *)
Theorem create_object_registers uuid req class_name klass objects payload obj obj_id :
  get_class_named class_name = Return (Some klass) ->
  get_request_payload req objects = (Return payload, objects) ->
  from_json_data klass payload = Return obj ->
  payload_id payload = Return obj_id ->
  let key := "pointer@" ++ default uuid obj_id in
  let ok := mkResponse 200 "text/html" (list_byte_of_string (json_string key)) in
  create_object uuid req class_name objects
  = (if isinstance obj Annotation_class
     then match show_channels obj with
          | Return _ => Return ok
          | Raise e => Raise e
          end
     else Return ok,
     <[key := obj]> objects)
  /\ Context.load key (create_object uuid req class_name objects).2
     = (Return obj, <[key := obj]> objects).
Proof.
  intros Hclass Hpayload Hobj Hid key ok.
  assert (Hcreate : create_object uuid req class_name objects
                    = (if isinstance obj Annotation_class
                       then match show_channels obj with
                            | Return _ => Return ok
                            | Raise e => Raise e
                            end
                       else Return ok,
                       <[key := obj]> objects)).
  { unfold create_object, bind at 1, lift. rewrite Hclass.
    unfold bind at 1. rewrite (create_spec _ _ _ _ _ Hpayload), Hobj, Hid.
    simpl. unfold bind, lift, ret.
    destruct (isinstance obj Annotation_class); [| done].
    by destruct (show_channels obj). }
  split; [exact Hcreate |].
  rewrite Hcreate. simpl. apply load_Some, lookup_insert_eq.
Qed.

(** X10. When the constructor of a resolved class raises
    [FeatureDataMismatchException], the registered error handler answers
    with status 400 and the exception's text as body, and nothing is
    registered. *)
Theorem create_object_feature_data_mismatch uuid req class_name klass objects payload msg :
  get_class_named class_name = Return (Some klass) ->
  get_request_payload req objects = (Return payload, objects) ->
  from_json_data klass payload = Raise (FeatureDataMismatchException msg) ->
  (create_object uuid req class_name objects).2 = objects
  /\ flask_response (create_object uuid req class_name objects).1
     = mkResponse 400 "text/html" (list_byte_of_string msg).
Proof.
  intros Hclass Hpayload Hobj.
  assert (Hcreate : create_object uuid req class_name objects
                    = (Raise (FeatureDataMismatchException msg), objects)).
  { unfold create_object, bind at 1, lift. rewrite Hclass.
    unfold bind at 1. by rewrite (create_spec _ _ _ _ _ Hpayload), Hobj. }
  by rewrite Hcreate.
Qed.

(** X11. [DELETE /<class_name>/<object_id>] for a class name that resolves
    and a handle whose object is an instance of the class: the entry is
    deleted and the answer is what [flask.jsonify] writes for
    [{"id": object_id}], with status 200. *)
Theorem remove_object_deletes class_name klass object_id obj objects :
  get_class_named class_name = Return (Some klass) ->
  objects !! object_id = Some obj ->
  issubclass (type_of obj) klass = true ->
  remove_object class_name object_id objects
  = (Return (mkResponse 200 "application/json"
               (list_byte_of_string
                  ("{" ++ json_string "id" ++ ":" ++ json_string object_id ++ "}"
                   ++ newline))),
     delete object_id objects).
Proof.
  intros Hclass Hkey Hsub. unfold remove_object, bind, lift, ret. rewrite Hclass.
  unfold Context.remove. rewrite Hkey. simpl. rewrite Hsub. simpl.
  unfold jsonify. do 3 f_equal.
  cbn -[json_string String.append].
  rewrite !append_assoc. reflexivity.
Qed.

(** X12. A DELETE under a class name that does not resolve deletes
    nothing, whether or not the handle exists: the view function raises
    and the registry is unchanged. *)
Theorem remove_object_unresolved_class class_name object_id objects :
  workflow_classes !! normalized_name class_name = None ->
  (remove_object class_name object_id objects).2 = objects
  /\ is_raise (remove_object class_name object_id objects).1 = true
  /\ status (flask_response (remove_object class_name object_id objects).1) = 500.
Proof.
  intros Hclass.
  assert (Houtcome : exists e, remove_object class_name object_id objects = (Raise e, objects)
                               /\ status (flask_response (Raise e : result Response)) = 500).
  { unfold remove_object, bind, lift, get_class_named. rewrite Hclass.
    destruct pydevd_settrace as [failure|]; [eexists; split; [done | by destruct failure] |].
    unfold Context.remove. destruct (objects !! object_id); by eexists. }
  destruct Houtcome as (e & -> & Hstatus). by repeat split.
Qed.

End Payload_properties.

#[local] Existing Instance More_examples.serialization.

Lemma get_request_payload_files_override_witness :
  let req := mkRequest [] [("name", "sample"); ("data", "inline")]
                       [("data", ["001"%byte; "002"%byte])] in
  exists payload,
    get_request_payload req Examples.objects = (Return payload, Examples.objects)
    /\ "data" ∈ map fst (files req)
    /\ exists b, (("data", b) ∈ files req /\ payload !! "data" = Some (PBytes b)).
Proof.
  intros req.
  assert (Hpayload : exists payload,
             get_request_payload req Examples.objects = (Return payload, Examples.objects))
    by (eexists; reflexivity).
  destruct Hpayload as [payload Hpayload]. exists payload. split; [exact Hpayload |].
  assert (Hin : "data" ∈ map fst (files req)) by (simpl; left).
  split; [exact Hin |].
  destruct (get_request_payload_files_override req Examples.objects payload "data" Hpayload)
    as (from_form & _ & Hfiles & _).
  exact (Hfiles Hin).
Defined.

Lemma create_all_or_nothing_witness :
  create (H0 := More_examples.headless_deployment) "4f1c"
         (mkRequest [] [("id", "smooth"); ("sigma", "0.3")] [])
         (Some GaussianSmoothing_class) Examples.objects
  = (Return (ObjOpaque GaussianSmoothing_class "feature extractor", "pointer@smooth"),
     <["pointer@smooth" := ObjOpaque GaussianSmoothing_class "feature extractor"]>
       Examples.objects).
Proof.
  destruct (create_all_or_nothing (H0 := More_examples.headless_deployment) "4f1c"
              (mkRequest [] [("id", "smooth"); ("sigma", "0.3")] [])
              GaussianSmoothing_class Examples.objects _ eq_refl)
    as [(e & _ & [Hraise | [_ Hraise]]) | (obj & obj_id & Hobj & Hid & Hcreate)].
  - discriminate Hraise.
  - discriminate Hraise.
  - injection Hobj as <-. injection Hid as <-. exact Hcreate.
Defined.

(** An annotation is created on the machine without a display: the client
    is told of a failure, and the annotation is in the registry. *)
Lemma create_object_registers_witness :
  let outcome :=
    create_object (H0 := More_examples.headless_deployment) "4f1c"
                  (mkRequest [] [("id", "scribble")] []) "annotation" Examples.objects in
  outcome.1 = Raise (PyException "cannot open display")
  /\ Context.load "pointer@scribble" outcome.2
     = (Return (ObjOpaque Annotation_class "from_json_data"),
        <["pointer@scribble" := ObjOpaque Annotation_class "from_json_data"]>
          Examples.objects).
Proof.
  destruct (create_object_registers (H0 := More_examples.headless_deployment) "4f1c"
              (mkRequest [] [("id", "scribble")] []) "annotation" Annotation_class
              Examples.objects _ (ObjOpaque Annotation_class "from_json_data")
              (Some "scribble") eq_refl eq_refl eq_refl eq_refl) as [Hcreate Hload].
  split; [by rewrite Hcreate | exact Hload].
Defined.

Lemma create_object_feature_data_mismatch_witness :
  flask_response
    (create_object (H0 := More_examples.headless_deployment) "4f1c"
                   (mkRequest [] [("id", "smooth")] []) "gaussian_smoothing"
                   Examples.objects).1
  = mkResponse 400 "text/html" (list_byte_of_string "sigma is missing").
Proof.
  exact (proj2 (create_object_feature_data_mismatch
                  (H0 := More_examples.headless_deployment) "4f1c"
                  (mkRequest [] [("id", "smooth")] []) "gaussian_smoothing"
                  GaussianSmoothing_class Examples.objects _ "sigma is missing"
                  eq_refl eq_refl eq_refl)).
Defined.

Lemma remove_object_deletes_witness :
  (remove_object "feature_extractor" "pointer@smoothing" Examples.objects).2
  = delete "pointer@smoothing" Examples.objects.
Proof.
  exact (f_equal snd (remove_object_deletes "feature_extractor" FeatureExtractor_class
                        "pointer@smoothing"
                        (ObjOpaque GaussianSmoothing_class "sigma=0.3")
                        Examples.objects eq_refl eq_refl eq_refl)).
Defined.

(** [DELETE /datasource/pointer@image]: the handle exists, the class name
    does not resolve, and the image stays. *)
Lemma remove_object_unresolved_class_witness :
  workflow_classes !! normalized_name "datasource" = None
  /\ (remove_object "datasource" "pointer@image" Examples.objects).2 = Examples.objects
  /\ status (flask_response
               (remove_object "datasource" "pointer@image" Examples.objects).1) = 500.
Proof.
  split; [reflexivity |].
  destruct (remove_object_unresolved_class "datasource" "pointer@image" Examples.objects
              eq_refl) as (Hkeep & _ & Hstatus).
  split; [exact Hkeep | exact Hstatus].
Defined.

(* ===================================================================== *)
(** * Further properties of the pipeline and of the GET routes            *)
(* ===================================================================== *)

Section Read_only.
Context `{Numeric}.

Lemma bind_keeps {A B} (m : M A) (k : A -> M B) :
  (forall objects, (m objects).2 = objects) ->
  (forall a objects, (k a objects).2 = objects) ->
  forall objects, (bind m k objects).2 = objects.
Proof.
  intros Hm Hk objects. unfold bind. specialize (Hm objects).
  destruct (m objects) as [[a|e] objects']; simpl in *; subst; [apply Hk | done].
Qed.

Lemma lift_keeps {A} (r : result A) objects : (lift r objects).2 = objects.
Proof. done. Qed.

Lemma load_keeps key (objects : gmap string pyobject) :
  (Context.load key objects).2 = objects.
Proof. unfold Context.load. by destruct (objects !! key). Qed.

Lemma do_predictions_keeps picks roi classifier_id datasource_id
      (objects : gmap string pyobject) :
  (do_predictions picks roi classifier_id datasource_id objects).2 = objects.
Proof.
  revert objects. unfold do_predictions.
  apply bind_keeps; [apply load_keeps | intros classifier].
  apply bind_keeps; [apply load_keeps | intros datasource].
  apply bind_keeps; [apply lift_keeps | intros ds].
  apply bind_keeps; [apply lift_keeps | intros cl]. done.
Qed.

(** X13. [do_predictions] never changes the registry, and it looks the
    classifier up first: without the classifier handle it raises the
    [KeyError] of that handle, with it but without the data-source handle
    the [KeyError] of the data source; a data-source handle that holds
    something else fails on the attribute lookup, and so does a classifier
    handle that holds something else. *)
Theorem do_predictions_handle_errors picks roi classifier_id datasource_id
        (objects : gmap string pyobject) :
  let outcome := do_predictions picks roi classifier_id datasource_id objects in
  outcome.2 = objects
  /\ (objects !! classifier_id = None -> outcome.1 = Raise (KeyError classifier_id))
  /\ (is_Some (objects !! classifier_id) -> objects !! datasource_id = None ->
      outcome.1 = Raise (KeyError datasource_id))
  /\ (forall c d, objects !! classifier_id = Some c -> objects !! datasource_id = Some d ->
        as_datasource "shape" d = Raise (AttributeError "shape") ->
        outcome.1 = Raise (AttributeError "shape"))
  /\ (forall c ds, objects !! classifier_id = Some c ->
        objects !! datasource_id = Some (ObjDataSource ds) ->
        as_classifier "allocate_predictions" c
        = Raise (AttributeError "allocate_predictions") ->
        outcome.1 = Raise (AttributeError "allocate_predictions")).
Proof.
  intros outcome. subst outcome. split; [apply do_predictions_keeps |].
  unfold do_predictions, bind, lift, ret, Context.load.
  split; [by intros -> |]. split; [intros [c ->] ->; done |].
  split.
  - intros c d -> -> Hd. by rewrite Hd.
  - intros c ds -> -> Hc. simpl. by rewrite Hc.
Qed.

End Read_only.

Section More_wire_properties.
Context `{Deployment} `{!Serialization} `{!Unicode}.
Implicit Types (objects : gmap string pyobject).

(** X14. The GET routes only read the registry: whatever the request and
    whatever the outcome, [Context.objects] is the same after [predict],
    [ng_predict], [info_dict], [ng_raw], [datasource_info_dict],
    [list_objects] and [show_object]. *)
Theorem get_routes_keep_registry objects :
  (forall picks req, (predict picks req objects).2 = objects)
  /\ (forall picks classifier_id datasource_id xBegin xEnd yBegin yEnd zBegin zEnd,
        (ng_predict picks classifier_id datasource_id
                    xBegin xEnd yBegin yEnd zBegin zEnd objects).2 = objects)
  /\ (forall classifier_id datasource_id,
        (info_dict classifier_id datasource_id objects).2 = objects)
  /\ (forall datasource_id xBegin xEnd yBegin yEnd zBegin zEnd,
        (ng_raw datasource_id xBegin xEnd yBegin yEnd zBegin zEnd objects).2 = objects)
  /\ (forall datasource_id, (datasource_info_dict datasource_id objects).2 = objects)
  /\ (forall class_name, (list_objects class_name objects).2 = objects)
  /\ (forall class_name object_id, (show_object class_name object_id objects).2 = objects).
Proof.
  repeat split; intros; revert objects.
  - unfold predict, requested_predictions.
    apply bind_keeps; [| intros predictions].
    + apply bind_keeps; [apply lift_keeps | intros roi_params].
      apply bind_keeps; [apply lift_keeps | intros roi].
      apply bind_keeps; [apply lift_keeps | intros classifier_id].
      apply bind_keeps; [apply lift_keeps | intros datasource_id].
      apply do_predictions_keeps.
    + apply bind_keeps; [apply lift_keeps | intros channel]. apply lift_keeps.
  - unfold ng_predict.
    apply bind_keeps; [apply do_predictions_keeps | intros predictions].
    apply bind_keeps; [apply lift_keeps | intros chunk]. done.
  - unfold info_dict.
    apply bind_keeps; [apply load_keeps | intros classifier].
    apply bind_keeps; [apply load_keeps | intros datasource].
    apply bind_keeps; [apply lift_keeps | intros cl].
    apply bind_keeps; [apply lift_keeps | intros ds]. done.
  - unfold ng_raw.
    apply bind_keeps; [apply load_keeps | intros datasource].
    apply bind_keeps; [apply lift_keeps | intros ds].
    apply bind_keeps; [apply lift_keeps | intros data].
    apply bind_keeps; [apply lift_keeps | intros cells]. done.
  - unfold datasource_info_dict.
    apply bind_keeps; [apply load_keeps | intros datasource].
    apply bind_keeps; [apply lift_keeps | intros ds]. done.
  - unfold list_objects.
    apply bind_keeps; [apply lift_keeps | intros klass].
    apply bind_keeps; [| intros found].
    + intros objects. destruct klass as [klass|]; simpl; [done |].
      by destruct (size objects =? 0)%nat.
    + apply bind_keeps; [apply lift_keeps | intros text]. done.
  - unfold show_object.
    apply bind_keeps; [apply lift_keeps | intros klass].
    apply bind_keeps; [apply load_keeps | intros obj].
    apply bind_keeps; [apply lift_keeps | intros text]. done.
Qed.

(** X15. The raw-chunk route of predictions never answers with status
    400: the exception of a tile, [FeatureDataMismatchException] included,
    stays in the tile's future, so the error handler of the application
    cannot see it. The status is 200 or 500. *)
Theorem ng_predict_never_answers_400 picks classifier_id datasource_id
        xBegin xEnd yBegin yEnd zBegin zEnd objects :
  let response :=
    flask_response (ng_predict picks classifier_id datasource_id
                               xBegin xEnd yBegin yEnd zBegin zEnd objects).1 in
  status response = 200 \/ status response = 500.
Proof.
  unfold ng_predict, bind, lift, ret. unfold do_predictions, bind, lift, ret, Context.load.
  destruct (objects !! classifier_id) as [c|]; [| by right].
  destruct (objects !! datasource_id) as [d|]; [| by right].
  destruct d as [ds| |]; simpl; [| by right ..].
  destruct c as [|cl|]; simpl; [by right | | by right].
  unfold tobytes_F_xyzc. destruct (extent _ =? 1); simpl; auto.
Qed.

(** X16. The raw-data route of a data source lets the exception of
    [retrieve] through: the view function raises it, and a
    [FeatureDataMismatchException] is answered with status 400 and its
    text. *)
Theorem ng_raw_propagates_retrieve_failure datasource_id ds e
        xBegin xEnd yBegin yEnd zBegin zEnd objects :
  objects !! datasource_id = Some (ObjDataSource ds) ->
  ds_retrieve ds (resolve (mkAxes None None (Some (slice xBegin xEnd))
                                  (Some (slice yBegin yEnd)) (Some (slice zBegin zEnd)))
                          (ds_shape ds)) = Raise e ->
  ng_raw datasource_id xBegin xEnd yBegin yEnd zBegin zEnd objects = (Raise e, objects)
  /\ (forall msg, e = FeatureDataMismatchException msg ->
        flask_response (ng_raw datasource_id xBegin xEnd yBegin yEnd zBegin zEnd objects).1
        = mkResponse 400 "text/html" (list_byte_of_string msg)).
Proof.
  intros Hds Hretrieve.
  assert (Hraw : ng_raw datasource_id xBegin xEnd yBegin yEnd zBegin zEnd objects
                 = (Raise e, objects)).
  { unfold ng_raw, bind, lift, ret, Context.load. rewrite Hds. simpl.
    by rewrite Hretrieve. }
  split; [exact Hraw |]. intros msg ->. by rewrite Hraw.
Qed.

End More_wire_properties.

(** A classifier whose every tile raises the feature mismatch is answered
    with status 200 on the prediction route; the data source that raises
    it in [retrieve] is answered with status 400 on the raw route. *)
Lemma ng_raw_propagates_retrieve_failure_witness :
  status (flask_response
            (ng_predict [] "pointer@strict" "pointer@image" 0 4 0 4 0 1
                        More_examples.objects).1) = 200
  /\ flask_response (ng_raw "pointer@mismatched" 0 4 0 4 0 1 More_examples.objects).1
     = mkResponse 400 "text/html" (list_byte_of_string "wrong number of channels").
Proof.
  split; [reflexivity |].
  exact (proj2 (ng_raw_propagates_retrieve_failure "pointer@mismatched"
                  More_examples.mismatched_source
                  (FeatureDataMismatchException "wrong number of channels")
                  0 4 0 4 0 1 More_examples.objects eq_refl eq_refl)
               "wrong number of channels" eq_refl).
Defined.

(* ===================================================================== *)
(** * Properties of the query arguments of [predict]                      *)
(* ===================================================================== *)

Lemma append_String (ch : ascii) (s t : string) : String ch s ++ t = String ch (s ++ t).
Proof. reflexivity. Qed.

Lemma append_snoc (s t : string) (ch : ascii) :
  (s ++ String ch EmptyString) ++ t = s ++ String ch t.
Proof. induction s as [|ch' s IH]; [done |]. by rewrite !append_String, IH. Qed.

Lemma append_empty_r (s : string) : s ++ EmptyString = s.
Proof. induction s as [|ch s IH]; [done |]. by rewrite append_String, IH. Qed.

Lemma count_char_append (ch : ascii) (s t : string) :
  count_char ch (s ++ t) = (count_char ch s + count_char ch t)%nat.
Proof.
  induction s as [|ch' s IH]; [done |].
  rewrite append_String. simpl. rewrite IH. lia.
Qed.

(** A text without the separator is a single part. *)
Lemma split_on_no_sep (sep : ascii) (current text : string) :
  count_char sep text = O -> split_on sep current text = [current ++ text].
Proof.
  revert current. induction text as [|ch text IH]; intros current; simpl.
  - by rewrite append_empty_r.
  - destruct (Ascii.eqb ch sep); [done |]. simpl. intros Hcount.
    by rewrite IH, append_snoc.
Qed.

(** The first separator ends the first part. *)
Lemma split_on_first (sep : ascii) (current s1 s2 : string) :
  count_char sep s1 = O ->
  split_on sep current (s1 ++ String sep s2)
  = (current ++ s1) :: split_on sep EmptyString s2.
Proof.
  revert current. induction s1 as [|ch s1 IH]; intros current.
  - intros _. rewrite append_empty_r. change (EmptyString ++ String sep s2) with (String sep s2).
    simpl. by rewrite Ascii.eqb_refl.
  - rewrite append_String. simpl. destruct (Ascii.eqb ch sep); [done |]. simpl.
    intros Hcount. by rewrite IH, append_snoc.
Qed.

Lemma split_on_nonempty (sep : ascii) (current text : string) :
  split_on sep current text <> [].
Proof.
  revert current. induction text as [|ch text IH]; intros current; simpl; [done |].
  destruct (Ascii.eqb ch sep); [done | apply IH].
Qed.

Lemma split_on_single (sep : ascii) (current text part : string) :
  split_on sep current text = [part] ->
  part = current ++ text /\ count_char sep text = O.
Proof.
  revert current. induction text as [|ch text IH]; intros current; simpl.
  - intros [= <-]. by rewrite append_empty_r.
  - destruct (Ascii.eqb ch sep).
    + intros [= _ Hrest]. by apply split_on_nonempty in Hrest.
    + intros Hsplit. destruct (IH _ Hsplit) as [-> Hcount].
      by rewrite append_snoc.
Qed.

Lemma split_on_pair (sep : ascii) (current text p q : string) :
  split_on sep current text = [p; q] ->
  exists s1, p = current ++ s1 /\ text = s1 ++ String sep q
             /\ count_char sep s1 = O /\ count_char sep q = O.
Proof.
  revert current. induction text as [|ch text IH]; intros current; simpl; [done |].
  destruct (Ascii.eqb ch sep) eqn:Hch.
  - intros [= <- Hrest]. apply Ascii.eqb_eq in Hch as ->.
    destruct (split_on_single _ _ _ _ Hrest) as [-> Hcount].
    exists EmptyString. by rewrite append_empty_r.
  - intros Hsplit. destruct (IH _ Hsplit) as (s1 & -> & -> & Hs1 & Hq).
    exists (String ch s1). rewrite append_snoc. simpl. by rewrite Hch.
Qed.

(** X17. The value of an axis argument of [predict] is accepted exactly
    when it is two integer literals around one underscore:
    [start, stop = [int(part) for part in v.split("_")]] gives
    [slice(a, b)] if and only if [v] is [sa + "_" + sb] where neither part
    holds an underscore, [int(sa)] is [a] and [int(sb)] is [b]. *)
Theorem parse_range_accepts `{Unicode} (v : string) (a b : Z) :
  parse_range v = Return (slice a b)
  <-> exists sa sb,
        v = sa ++ String "_" sb
        /\ count_char "_" sa = O /\ count_char "_" sb = O
        /\ int_of_str sa = Return a /\ int_of_str sb = Return b.
Proof.
  unfold parse_range.
  set (ints := fix ints (parts : list string) : result (list Z) :=
         match parts with
         | [] => Return []
         | part :: parts' =>
             rbind (int_of_str part)
                   (fun n => rbind (ints parts') (fun ns => Return (n :: ns)))
         end).
  assert (Hlength : forall parts ns, ints parts = Return ns -> length ns = length parts).
  { induction parts as [|part parts IH]; intros ns; simpl; [by intros [= <-] |].
    destruct (int_of_str part); simpl; [| done].
    destruct (ints parts) as [ns'|]; simpl; [| done].
    intros [= <-]. simpl. by rewrite (IH ns'). }
  split.
  - destruct (split_on "_" EmptyString v) as [|p [|q [|r parts]]] eqn:Hsplit.
    + done.
    + simpl. by destruct (int_of_str p).
    + simpl. destruct (int_of_str p) as [a'|] eqn:Hp; simpl; [| done].
      destruct (int_of_str q) as [b'|] eqn:Hq; simpl; [| done].
      intros [= <- <-].
      destruct (split_on_pair _ _ _ _ _ Hsplit) as (s1 & Hs1eq & -> & Hs1 & Hcount).
      change (EmptyString ++ s1) with s1 in Hs1eq. subst p.
      by exists s1, q.
    + destruct (ints (p :: q :: r :: parts)) as [ns|] eqn:Hints; simpl; [| done].
      apply Hlength in Hints. by destruct ns as [|? [|? [|? ?]]].
  - intros (sa & sb & -> & Hsa & Hsb & Ha & Hb).
    rewrite split_on_first, split_on_no_sep by done.
    change (EmptyString ++ sa) with sa. change (EmptyString ++ sb) with sb.
    simpl. by rewrite Ha, Hb.
Qed.

Lemma roi_params_of_keys `{Unicode} items acc ps :
  roi_params_of items acc = Return ps ->
  map fst ps
  = (map fst acc ++ List.filter (fun k => str_in k "tcxyz") (map fst items))%list.
Proof.
  revert acc. induction items as [|[axis v] items IH]; intros acc;
    cbn [roi_params_of map List.filter fst].
  - intros [= <-]. by rewrite app_nil_r.
  - destruct (str_in axis "tcxyz").
    + destruct (parse_range v) as [slc|]; cbn [rbind]; [| done].
      intros Hrest. rewrite (IH _ Hrest), map_app. cbn [map fst].
      by rewrite <- app_assoc.
    + apply IH.
Qed.

Lemma Slice5D_of_refuses ps acc :
  (exists k, k ∈ map fst ps /\ is_axis_label k = false) ->
  exists msg, Slice5D_of ps acc = Raise (TypeError msg).
Proof.
  revert acc. induction ps as [|[axis slc] ps IH]; intros acc (k & Hin & Hk).
  - by apply elem_of_nil in Hin.
  - simpl in *. apply elem_of_cons in Hin as [<- | Hin].
    + unfold is_axis_label in Hk. rewrite !orb_false_iff in Hk.
      destruct Hk as [[[[-> ->] ->] ->] ->]. by eexists.
    + assert (Hrest : exists k, k ∈ map fst ps /\ is_axis_label k = false) by eauto.
      repeat (match goal with |- context [if ?c then _ else _] => destruct c end;
              [apply IH, Hrest |]).
      by eexists.
Qed.

Section Predict_properties.
Context `{Deployment} `{!Unicode}.
Implicit Types (objects : gmap string pyobject).

(** X18. [axis in "tcxyz"] is a substring test: a query key such as [xy]
    or the empty key passes it without being an axis label. When all the
    ranges parse, such a key makes [predict] fail with the [TypeError] of
    the [Slice5D] constructor, before any handle is looked up. *)
Theorem predict_refuses_substring_keys picks req objects ps k v :
  roi_params_of (args req) [] = Return ps ->
  (k, v) ∈ args req ->
  str_in k "tcxyz" = true ->
  is_axis_label k = false ->
  exists msg,
    predict picks req objects = (Raise (TypeError msg), objects)
    /\ status (flask_response (Raise (TypeError msg) : result Response)) = 500.
Proof.
  intros Hparams Hin Hsub Hlabel.
  destruct (Slice5D_of_refuses ps Slice5D_all) as [msg Hmsg].
  { exists k. split; [| done].
    rewrite (roi_params_of_keys _ _ _ Hparams). simpl.
    apply list_elem_of_In, filter_In. split; [| done].
    apply list_elem_of_In, list_elem_of_fmap. by exists (k, v). }
  exists msg. split; [| done].
  unfold predict, requested_predictions, bind, lift. by rewrite Hparams, Hmsg.
Qed.

(** X19. When the axis arguments are well formed and one of the two
    handle arguments is missing from the query, [predict] is answered with
    status 400 (werkzeug's [BadRequestKeyError]), not with a server
    error. *)
Theorem predict_missing_handle_is_bad_request picks req objects ps roi :
  roi_params_of (args req) [] = Return ps ->
  Slice5D_of ps Slice5D_all = Return roi ->
  args_get "pixel_classifier_id" (args req) = None
  \/ args_get "data_source_id" (args req) = None ->
  flask_response (predict picks req objects).1
  = mkResponse 400 "text/html" (list_byte_of_string "Bad Request").
Proof.
  intros Hparams Hroi Hmissing.
  unfold predict, requested_predictions, bind, lift, args_item.
  rewrite Hparams, Hroi.
  destruct (args_get "pixel_classifier_id" (args req)) as [c|]; [| done].
  destruct Hmissing as [Hc | ->]; [discriminate Hc | done].
Qed.

End Predict_properties.

Lemma parse_range_accepts_witness :
  parse_range "0_-12" = Return (slice 0 (-12))
  /\ exists sa sb, "0_-12" = sa ++ String "_" sb /\ int_of_str sb = Return (-12).
Proof.
  split; [reflexivity |].
  destruct (proj1 (parse_range_accepts "0_-12" 0 (-12)) eq_refl)
    as (sa & sb & Hv & _ & _ & _ & Hb).
  exists sa, sb. split; [exact Hv | exact Hb].
Defined.

(** [GET /predict/?xy=0_4&...]: the key [xy] is a substring of ["tcxyz"]. *)
Lemma predict_refuses_substring_keys_witness :
  let req :=
    mkRequest [("xy", "0_4"); ("pixel_classifier_id", "pointer@classifier");
               ("data_source_id", "pointer@image")] [] [] in
  str_in "xy" "tcxyz" = true
  /\ is_axis_label "xy" = false
  /\ exists msg, predict [] req Examples.objects = (Raise (TypeError msg), Examples.objects).
Proof.
  intros req. split; [reflexivity |]. split; [reflexivity |].
  destruct (predict_refuses_substring_keys [] req Examples.objects
              [("xy", slice 0 4)] "xy" "0_4" eq_refl) as (msg & Hpredict & _).
  - left.
  - reflexivity.
  - reflexivity.
  - exists msg. exact Hpredict.
Defined.

Lemma predict_missing_handle_is_bad_request_witness :
  status (flask_response
            (predict [] (mkRequest [("x", "0_4"); ("data_source_id", "pointer@image")] [] [])
                     Examples.objects).1) = 400.
Proof.
  exact (f_equal status
           (predict_missing_handle_is_bad_request []
              (mkRequest [("x", "0_4"); ("data_source_id", "pointer@image")] [] [])
              Examples.objects [("x", slice 0 4)] _ eq_refl eq_refl (or_introl eq_refl))).
Defined.

(* ===================================================================== *)
(** * Properties of the info, listing and show routes                     *)
(* ===================================================================== *)

Section Listing_properties.
Context `{Deployment} `{!Serialization} `{!Unicode}.
Implicit Types (objects : gmap string pyobject).

(** X20. For a classifier that emits [n] channels, the info document of
    the predictions and the info document of the data source describe the
    same volume: their [scales] (size, resolution, offset, chunk sizes,
    encoding) are equal, and they differ only in [num_channels], which is
    [n] for the predictions and the channel count of the source for the
    source. *)
Theorem info_documents_agree classifier_id datasource_id cl ds n objects :
  objects !! classifier_id = Some (ObjClassifier cl) ->
  objects !! datasource_id = Some (ObjDataSource ds) ->
  (forall r, cl_get_expected_roi cl r = with_channels r n) ->
  0 <= n -> 0 <= x_ (ds_shape ds) -> 0 <= y_ (ds_shape ds) -> 0 <= z_ (ds_shape ds) ->
  exists predictions_document source_document,
    info_dict classifier_id datasource_id objects
    = (Return (jsonify predictions_document), objects)
    /\ datasource_info_dict datasource_id objects
       = (Return (jsonify source_document), objects)
    /\ json_field "scales" predictions_document = json_field "scales" source_document
    /\ json_field "num_channels" predictions_document = Some (JInt n)
    /\ json_field "num_channels" source_document = Some (JInt (c_ (ds_shape ds))).
Proof.
  intros Hcl Hds Hexpected Hn Hx Hy Hz.
  eexists _, _. split; [| split].
  - unfold info_dict, bind, lift, ret, Context.load. by rewrite Hcl, Hds.
  - unfold datasource_info_dict, bind, lift, ret, Context.load. by rewrite Hds.
  - rewrite Hexpected. unfold info_document, json_field, to_tuple_xyz, shape_of, extent.
    simpl. rewrite !Z.sub_0_r.
    rewrite !Z.max_r by done. by split.
Qed.

(** X21. [GET /<class_name>/<object_id>] does not check the class: when
    [get_class_named] returns at all, the answer is the JSON of whatever
    object the handle holds, and it is the same under every class name for
    which [get_class_named] returns. *)
Theorem show_object_ignores_class class_name resolved object_id obj text objects :
  get_class_named class_name = Return resolved ->
  objects !! object_id = Some obj ->
  to_json obj = Return text ->
  show_object class_name object_id objects
  = (Return (mkResponse 200 "application/json" (list_byte_of_string text)), objects)
  /\ forall class_name' resolved',
       get_class_named class_name' = Return resolved' ->
       show_object class_name' object_id objects
       = show_object class_name object_id objects.
Proof.
  intros Hclass Hobj Htext.
  assert (Hshow : forall name r, get_class_named name = Return r ->
            show_object name object_id objects
            = (Return (mkResponse 200 "application/json" (list_byte_of_string text)),
               objects)).
  { intros name r Hname. unfold show_object, bind, lift, ret, Context.load.
    by rewrite Hname, Hobj, Htext. }
  split; [by apply (Hshow _ resolved) |].
  intros class_name' resolved' Hclass'.
  by rewrite (Hshow _ _ Hclass'), (Hshow _ _ Hclass).
Qed.

(** X22. [GET /<class_name>/] for a class name that does not resolve
    (where the debugger hook returns): on an empty registry the answer is
    the listing of the empty dictionary; on any other registry
    [isinstance(obj, None)] raises [TypeError] and the answer is a server
    error. *)
Theorem list_objects_unresolved_class class_name objects :
  get_class_named class_name = Return None ->
  (objects = ∅ ->
   list_objects class_name objects
   = (rbind (jsonify_objects ∅)
            (fun text => Return (mkResponse 200 "application/json"
                                   (list_byte_of_string text))),
      objects))
  /\ (objects <> ∅ ->
      exists msg,
        list_objects class_name objects = (Raise (TypeError msg), objects)
        /\ status (flask_response (list_objects class_name objects).1) = 500).
Proof.
  intros Hclass. unfold list_objects, bind at 1, lift. rewrite Hclass.
  unfold bind, get_all_resolved, lift, ret. split.
  - intros ->. rewrite map_size_empty. simpl. by destruct (jsonify_objects ∅).
  - intros Hne. destruct (Nat.eqb_spec (size objects) 0) as [Hsize | Hsize].
    + by apply map_size_empty_inv in Hsize.
    + by eexists.
Qed.

End Listing_properties.

Lemma info_documents_agree_witness :
  exists predictions_document source_document,
    info_dict "pointer@classifier" "pointer@image" Examples.objects
    = (Return (jsonify predictions_document), Examples.objects)
    /\ datasource_info_dict "pointer@image" Examples.objects
       = (Return (jsonify source_document), Examples.objects)
    /\ json_field "scales" predictions_document = json_field "scales" source_document
    /\ json_field "num_channels" predictions_document = Some (JInt 2)
    /\ json_field "num_channels" source_document = Some (JInt 1).
Proof.
  apply (info_documents_agree "pointer@classifier" "pointer@image" Examples.classifier
           (Examples.image 4 2) 2 Examples.objects eq_refl eq_refl (fun r => eq_refl));
    simpl; lia.
Defined.

(** [GET /annotation/pointer@image] shows the image, which is no
    annotation. *)
Lemma show_object_ignores_class_witness :
  isinstance (ObjDataSource (Examples.image 4 2)) Annotation_class = false
  /\ show_object "annotation" "pointer@image" Examples.objects
     = (Return (mkResponse 200 "application/json"
                  (list_byte_of_string
                     ("{" ++ json_string "class" ++ ":" ++ json_string "N5DataSource" ++ "}"))),
        Examples.objects).
Proof.
  split; [reflexivity |].
  exact (proj1 (show_object_ignores_class "annotation" (Some Annotation_class)
                  "pointer@image" (ObjDataSource (Examples.image 4 2)) _
                  Examples.objects eq_refl eq_refl eq_refl)).
Defined.

(** [GET /datasource/] on the registry of the examples. *)
Lemma list_objects_unresolved_class_witness :
  get_class_named "datasource" = Return None
  /\ exists msg,
       list_objects "datasource" Examples.objects = (Raise (TypeError msg), Examples.objects).
Proof.
  assert (Hclass : get_class_named "datasource" = Return None) by reflexivity.
  split; [exact Hclass |].
  destruct (proj2 (list_objects_unresolved_class "datasource" Examples.objects Hclass))
    as (msg & Hlist & _).
  - intros Hempty.
    assert (Hlookup : Examples.objects !! "pointer@image" = None)
      by (rewrite Hempty; apply lookup_empty).
    discriminate Hlookup.
  - exists msg. exact Hlist.
Defined.

(* ===================================================================== *)
(** * Properties of the layers of the split-body carving view             *)
(* ===================================================================== *)

#[local] Set Warnings "-clear-no-such-hyp".

Section Layer_properties.
Import SplitBodyCarvingGui.
Implicit Types (store : gmap nat Layer) (carvingLayers : list nat).

Lemma findLayer_ext {A} (f g : A -> bool) (layerlist : list A) :
  (forall l, l ∈ layerlist -> f l = g l) -> findLayer f layerlist = findLayer g layerlist.
Proof.
  induction layerlist as [|l layerlist IH]; intros Hfg; simpl; [done |].
  rewrite (Hfg l) by left. destruct (g l); [done |].
  apply IH. intros l' Hl'. apply Hfg. by right.
Qed.

(** [findLayer] returns the first layer of the list that satisfies [f]. *)
Lemma findLayer_first {A} (f : A -> bool) (layerlist : list A) (l : A) :
  findLayer f layerlist = Some l ->
  exists before after,
    layerlist = (before ++ l :: after)%list /\ f l = true
    /\ forall l', l' ∈ before -> f l' = false.
Proof.
  induction layerlist as [|l0 layerlist IH]; simpl; [done |].
  destruct (f l0) eqn:Hf.
  - intros [= ->]. exists [], layerlist. split; [done |]. split; [done |].
    intros l' Hl'. by apply elem_of_nil in Hl'.
  - intros Hfind. destruct (IH Hfind) as (before & after & -> & Hl & Hbefore).
    exists (l0 :: before), after. split; [done |]. split; [done |].
    intros l' Hl'. apply elem_of_cons in Hl' as [-> | Hl']; auto.
Qed.

Lemma name_is_agree store store' text ref :
  store' !! ref = store !! ref -> name_is store' text ref = name_is store text ref.
Proof. unfold name_is. by intros ->. Qed.

Lemma name_alter_visible store v seg ref :
  name <$> alter (set_visible v) seg store !! ref = name <$> store !! ref.
Proof.
  rewrite lookup_alter. case_decide; [subst |]; by destruct (store !! ref).
Qed.

(** [setupLayers], with the references of the new layers named: [r1],
    [r2] and [r3] are the objects that the three branches allocate. *)
Lemma setupLayers_unfold slots randint carvingLayers store :
  let layer1 := mkLayer "Current Raveler Object" true (25 # 100)
                        [rgba 0 0 0 0; rgba 0 0 255 255] "HighlightedRavelerObject" in
  let layer2 := mkLayer "Raveler Labels" false (4 # 10)
                        (random_colortable randint) "RavelerLabels" in
  let layer3 := mkLayer "Masked Segmentation" true (3 # 10)
                        [rgba 0 0 0 0; rgba 0 0 0 0; rgba 0 255 0 255]
                        "MaskedSegmentation" in
  let r1 := fresh (dom store) in
  let s1 := if HighlightedRavelerObject slots then <[r1 := layer1]> store else store in
  let r2 := fresh (dom s1) in
  let s2 := if RavelerLabels slots then <[r2 := layer2]> s1 else s1 in
  let r3 := fresh (dom s2) in
  let s3 := if MaskedSegmentation slots then <[r3 := layer3]> s2 else s2 in
  setupLayers slots randint carvingLayers store
  = (((if HighlightedRavelerObject slots then [r1] else [])
      ++ (if RavelerLabels slots then [r2] else [])
      ++ (if MaskedSegmentation slots then [r3] else []))
     ++ carvingLayers,
     if MaskedSegmentation slots
     then match findLayer (name_is s3 "segmentation") carvingLayers with
          | Some carvingSeg => alter (set_visible false) carvingSeg s3
          | None => s3
          end
     else s3)%list.
Proof.
  destruct slots as [[] [] []]; unfold setupLayers, new_layer; simpl;
    try reflexivity;
    match goal with |- context [findLayer ?f ?l] => by destruct (findLayer f l) end.
Qed.

(** X23. [setupLayers] returns the new layers in front of the carving
    layers, which keep their order: one new layer for each slot that is
    ready, named and ordered "Current Raveler Object", "Raveler Labels",
    "Masked Segmentation". The new layers are new objects, different from
    each other and from every layer that existed before. *)
Theorem setupLayers_order slots randint carvingLayers store :
  exists added,
    (setupLayers slots randint carvingLayers store).1 = (added ++ carvingLayers)%list
    /\ map (fun ref => name <$> (setupLayers slots randint carvingLayers store).2 !! ref)
           added
       = map Some (added_names slots)
    /\ NoDup added
    /\ forall ref, ref ∈ added -> ref ∉ dom store.
Proof.
  rewrite setupLayers_unfold. cbv zeta.
  set (layer1 := mkLayer "Current Raveler Object" _ _ _ _).
  set (layer2 := mkLayer "Raveler Labels" _ _ _ _).
  set (layer3 := mkLayer "Masked Segmentation" _ _ _ _).
  set (r1 := fresh (dom store)).
  set (s1 := if HighlightedRavelerObject slots then <[_ := _]> _ else _).
  set (r2 := fresh (dom s1)).
  set (s2 := if RavelerLabels slots then <[_ := _]> _ else _).
  set (r3 := fresh (dom s2)).
  set (s3 := if MaskedSegmentation slots then <[_ := _]> _ else _).
  assert (H1 : r1 ∉ dom store) by apply is_fresh.
  assert (H2 : r2 ∉ dom s1) by apply is_fresh.
  assert (H3 : r3 ∉ dom s2) by apply is_fresh.
  assert (Hs1 : dom store ⊆ dom s1)
    by (subst s1; destruct (HighlightedRavelerObject slots); set_solver).
  assert (Hs2 : dom s1 ⊆ dom s2)
    by (subst s2; destruct (RavelerLabels slots); set_solver).
  assert (Hnames : forall ref,
             name <$> (if MaskedSegmentation slots
                       then match findLayer (name_is s3 "segmentation") carvingLayers with
                            | Some carvingSeg => alter (set_visible false) carvingSeg s3
                            | None => s3
                            end
                       else s3) !! ref
             = name <$> s3 !! ref).
  { intros ref. destruct (MaskedSegmentation slots); [| done].
    destruct (findLayer _ _); [apply name_alter_visible | done]. }
  eexists. split; [reflexivity |]. simpl. split; [| split].
  - rewrite !map_app. unfold added_names. rewrite !map_app.
    f_equal; [| f_equal].
    + destruct (HighlightedRavelerObject slots) eqn:Hh; [| done]. simpl.
      rewrite Hnames. f_equal.
      assert (Hr1 : s1 !! r1 = Some layer1) by (subst s1; apply lookup_insert_eq).
      assert (r1 ∈ dom s1) by (apply elem_of_dom; eauto).
      subst s3 s2.
      destruct (MaskedSegmentation slots), (RavelerLabels slots);
        rewrite ?lookup_insert_ne by set_solver; by rewrite Hr1.
    + destruct (RavelerLabels slots) eqn:Hr; [| done]. simpl.
      rewrite Hnames. f_equal.
      assert (Hr2 : s2 !! r2 = Some layer2) by (subst s2; apply lookup_insert_eq).
      assert (r2 ∈ dom s2) by (apply elem_of_dom; eauto).
      subst s3.
      destruct (MaskedSegmentation slots);
        rewrite ?lookup_insert_ne by set_solver; by rewrite Hr2.
    + destruct (MaskedSegmentation slots) eqn:Hm; [| done]. simpl.
      rewrite Hnames. f_equal. subst s3. by rewrite lookup_insert_eq.
  - assert (Hr1 : HighlightedRavelerObject slots = true -> r1 ∈ dom s1)
      by (intros Hh; subst s1; rewrite Hh; set_solver).
    assert (Hr2 : RavelerLabels slots = true -> r2 ∈ dom s2)
      by (intros Hr; subst s2; rewrite Hr; set_solver).
    destruct (HighlightedRavelerObject slots), (RavelerLabels slots),
      (MaskedSegmentation slots); simpl; repeat constructor; set_solver.
  - intros ref.
    destruct (HighlightedRavelerObject slots), (RavelerLabels slots),
      (MaskedSegmentation slots); simpl; set_solver.
Qed.

(** X24. [setupLayers] changes no layer that existed before, except one:
    when the masked segmentation is ready, the first carving layer named
    "segmentation" becomes invisible and keeps its other attributes. Later
    carving layers of that name, and all layers when the slot is not
    ready or no layer has that name, are as they were. *)
Theorem setupLayers_hides_segmentation slots randint carvingLayers store :
  (forall ref, ref ∈ carvingLayers -> ref ∈ dom store) ->
  let store' := (setupLayers slots randint carvingLayers store).2 in
  let hidden :=
    if MaskedSegmentation slots
    then findLayer (name_is store "segmentation") carvingLayers
    else None in
  forall ref, ref ∈ dom store ->
    store' !! ref
    = if decide (hidden = Some ref)
      then set_visible false <$> store !! ref
      else store !! ref.
Proof.
  intros Hcarving store' hidden ref Href. subst store' hidden.
  rewrite setupLayers_unfold. cbv zeta.
  set (layer1 := mkLayer "Current Raveler Object" _ _ _ _).
  set (layer2 := mkLayer "Raveler Labels" _ _ _ _).
  set (layer3 := mkLayer "Masked Segmentation" _ _ _ _).
  set (r1 := fresh (dom store)).
  set (s1 := if HighlightedRavelerObject slots then <[_ := _]> _ else _).
  set (r2 := fresh (dom s1)).
  set (s2 := if RavelerLabels slots then <[_ := _]> _ else _).
  set (r3 := fresh (dom s2)).
  set (s3 := if MaskedSegmentation slots then <[_ := _]> _ else _).
  assert (H1 : r1 ∉ dom store) by apply is_fresh.
  assert (H2 : r2 ∉ dom s1) by apply is_fresh.
  assert (H3 : r3 ∉ dom s2) by apply is_fresh.
  assert (Hs1 : forall r, r ∈ dom store -> r ∈ dom s1 /\ s1 !! r = store !! r).
  { intros r Hr. subst s1. destruct (HighlightedRavelerObject slots); [| done].
    split; [set_solver |]. apply lookup_insert_ne. set_solver. }
  assert (Hs2 : forall r, r ∈ dom store -> r ∈ dom s2 /\ s2 !! r = store !! r).
  { intros r Hr. destruct (Hs1 r Hr) as [Hdom Heq]. subst s2.
    destruct (RavelerLabels slots); [| done].
    split; [set_solver |]. rewrite lookup_insert_ne by set_solver. done. }
  assert (Hs3 : forall r, r ∈ dom store -> s3 !! r = store !! r).
  { intros r Hr. destruct (Hs2 r Hr) as [Hdom Heq]. subst s3.
    destruct (MaskedSegmentation slots); [| done].
    rewrite lookup_insert_ne by set_solver. done. }
  simpl. destruct (MaskedSegmentation slots).
  - rewrite (findLayer_ext (name_is s3 "segmentation") (name_is store "segmentation"))
      by (intros l Hl; apply name_is_agree, Hs3, Hcarving, Hl).
    destruct (findLayer (name_is store "segmentation") carvingLayers) as [seg|].
    + rewrite lookup_alter. case_decide as Hseg; case_decide as Hseg'; subst;
        try congruence; by rewrite Hs3.
    + rewrite decide_False by done. by apply Hs3.
  - rewrite decide_False by done. by apply Hs3.
Qed.

End Layer_properties.

(** With the masked segmentation ready, the first "segmentation" layer is
    hidden and the second one is still visible. *)
Lemma setupLayers_hides_segmentation_witness :
  let store' :=
    (SplitBodyCarvingGui.setupLayers Layer_examples.only_masked (fun _ => 7)
       Layer_examples.carvingLayers Layer_examples.carving_store).2 in
  SplitBodyCarvingGui.visible <$> store' !! 1%nat = Some false
  /\ SplitBodyCarvingGui.visible <$> store' !! 2%nat = Some true.
Proof.
  intros store'.
  assert (Hcarving : forall ref, ref ∈ Layer_examples.carvingLayers ->
                                 ref ∈ dom Layer_examples.carving_store).
  { intros ref Href. apply elem_of_dom.
    unfold Layer_examples.carvingLayers in Href.
    repeat (apply elem_of_cons in Href as [-> | Href]; [by eexists |]).
    by apply elem_of_nil in Href. }
  pose proof (setupLayers_hides_segmentation
                Layer_examples.only_masked (fun _ => 7) Layer_examples.carvingLayers
                Layer_examples.carving_store Hcarving) as Hhides.
  split.
  - subst store'. rewrite (Hhides 1%nat) by (apply elem_of_dom; by eexists).
    reflexivity.
  - subst store'. rewrite (Hhides 2%nat) by (apply elem_of_dom; by eexists).
    reflexivity.
Defined.

(* ===================================================================== *)
(** * Class names and letter case                                         *)
(* ===================================================================== *)

Lemma lower_cased (ch : ascii) :
  is_lower (lower ch) || is_upper (lower ch) = is_lower ch || is_upper ch.
Proof. destruct ch as [[] [] [] [] [] [] [] []]; reflexivity. Qed.

Lemma lower_lower (ch : ascii) : lower (lower ch) = lower ch.
Proof. destruct ch as [[] [] [] [] [] [] [] []]; reflexivity. Qed.

Lemma upper_lower (ch : ascii) : upper (lower ch) = upper ch.
Proof. destruct ch as [[] [] [] [] [] [] [] []]; reflexivity. Qed.

(** [title()] does not depend on the case of the letters it is given. *)
Lemma title_from_lowercase (previous_is_cased : bool) (s : string) :
  title_from previous_is_cased (lowercase s) = title_from previous_is_cased s.
Proof.
  revert previous_is_cased. induction s as [|ch s IH]; intros previous_is_cased; [done |].
  simpl. rewrite lower_cased, lower_lower, upper_lower, !IH.
  destruct (is_lower ch || is_upper ch) eqn:Hcased; [done |].
  f_equal. unfold lower. apply orb_false_iff in Hcased as [_ ->]. done.
Qed.

Lemma lower_ascii (ch : ascii) :
  (nat_of_ascii (lower ch) <? 128)%nat = (nat_of_ascii ch <? 128)%nat.
Proof. destruct ch as [[] [] [] [] [] [] [] []]; reflexivity. Qed.

Lemma is_ascii_lowercase (s : string) : is_ascii (lowercase s) = is_ascii s.
Proof. induction s as [|ch s IH]; [done |]. simpl. by rewrite lower_ascii, IH. Qed.

Section Case_properties.
Context `{Deployment} `{!Unicode}.

(** X25. Outside the verbatim entries of the allow-list the case of the
    letters of a class name does not matter: two names that are equal up
    to letter case, neither of them an entry itself, get the same answer
    from [get_class_named]. (An entry itself is matched verbatim, so
    ["DataSource"] resolves where ["datasource"] does not.) *)
Theorem get_class_named_ignores_case name name' :
  lowercase name = lowercase name' ->
  known_class name = false ->
  known_class name' = false ->
  get_class_named name = get_class_named name'.
Proof.
  intros Hsame Hname Hname'.
  unfold get_class_named, normalized_name. rewrite Hname, Hname'.
  unfold title.
  rewrite <- (is_ascii_lowercase name), <- (is_ascii_lowercase name'), Hsame.
  destruct (is_ascii (lowercase name')).
  - by rewrite <- (title_from_lowercase false name), Hsame, title_from_lowercase.
  - by rewrite <- (unicode_title_lowercase name), Hsame, unicode_title_lowercase.
Qed.

End Case_properties.

Lemma get_class_named_ignores_case_witness :
  lowercase "GAUSSIAN_smoothing" = lowercase "gaussian_Smoothing"
  /\ get_class_named "GAUSSIAN_smoothing" = Return (Some GaussianSmoothing_class)
  /\ get_class_named "gaussian_Smoothing" = Return (Some GaussianSmoothing_class).
Proof.
  split; [reflexivity |].
  assert (Hfirst : get_class_named "GAUSSIAN_smoothing"
                   = Return (Some GaussianSmoothing_class)) by reflexivity.
  split; [exact Hfirst |].
  rewrite <- Hfirst. symmetry.
  exact (get_class_named_ignores_case "GAUSSIAN_smoothing" "gaussian_Smoothing"
           eq_refl eq_refl eq_refl).
Defined.
